(** * stix2.registration: the versioned type registry and its conformance gate

    A shallow embedding of [stix2/registration.py].  Python values that the
    module only inspects through [isinstance], [getattr] and attribute reads are
    records of exactly those observations; dictionaries whose iteration order
    decides which exception is raised are insertion-ordered association lists;
    the process-wide registry [registry.STIX2_OBJ_MAPS] is a finite map that is
    threaded, together with raised exceptions, through a small monad. *)

From Stdlib Require Import String Ascii List Bool Arith Lia.
From stdpp Require Import base option strings gmap.

Import ListNotations.
Local Open Scope string_scope.
Set Warnings "-register-all".

(** ** Python values used as a [version] argument *)

(** A caller passes either [None] or a [str]. *)
Inductive pyvalue : Type :=
  | PyNone
  | PyStr (s : string).

#[global] Instance pyvalue_eq_dec : EqDecision pyvalue.
Proof. solve_decision. Defined.

(** Truth value of an object: [None] and the empty string are falsy. *)
Definition truthy (v : pyvalue) : bool :=
  match v with
  | PyNone => false
  | PyStr s => negb (String.eqb s "")
  end.

(** [v == s] for a string literal [s]. *)
Definition py_eq_str (v : pyvalue) (s : string) : bool :=
  match v with
  | PyNone => false
  | PyStr s' => String.eqb s' s
  end.

(** ** Strings: [str.startswith], [str.endswith], [str.rsplit] *)

Module Str.

Definition startswith (s pre : string) : bool := String.prefix pre s.

Definition endswith (s suf : string) : bool :=
  (String.length suf <=? String.length s)%nat &&
  String.eqb
    (String.substring (String.length s - String.length suf)
                      (String.length suf) s)
    suf.

(** [rfind_split sep s] cuts [s] at the last occurrence of the character
    [sep]: [Some (head, tail)] when there is one. *)
Fixpoint rfind_split (sep : ascii) (s : string) : option (string * string) :=
  match s with
  | EmptyString => None
  | String c r =>
      match rfind_split sep r with
      | Some (h, t) => Some (String c h, t)
      | None => if Ascii.eqb c sep then Some (EmptyString, r) else None
      end
  end.

(** [s.rsplit(sep, 1)] for a one-character separator. *)
Definition rsplit1 (sep : ascii) (s : string) : list string :=
  match rfind_split sep s with
  | Some (h, t) => [h; t]
  | None => [s]
  end.

(** [l[-1]] on a non-empty list of strings. *)
Definition last_item (l : list string) : string := List.last l EmptyString.

End Str.

(** ** Property definitions

    [registration.py] looks at a property object in three ways only:
    [isinstance] against [ListProperty], [ReferenceProperty] and
    [ObjectReferenceProperty], and [getattr(prop_obj, "contained", None)].
    A property object is the record of these answers; [contained = None]
    stands for a missing attribute (or one that is [None]). *)
Inductive Property : Type :=
  mkProperty {
    is_ListProperty : bool;
    is_ReferenceProperty : bool;
    is_ObjectReferenceProperty : bool;
    contained : option Property
  }.

(** The classes that occur in [_VERSION_REF_TYPES_MAP]. *)
Inductive RefClass : Type :=
  | ObjectReferenceProperty
  | ReferenceProperty.

#[global] Instance RefClass_eq_dec : EqDecision RefClass.
Proof. solve_decision. Defined.

Definition isinstance1 (p : Property) (c : RefClass) : bool :=
  match c with
  | ObjectReferenceProperty => is_ObjectReferenceProperty p
  | ReferenceProperty => is_ReferenceProperty p
  end.

(** [isinstance(p, classes)] for a tuple of classes. *)
Definition isinstance (p : Property) (classes : list RefClass) : bool :=
  existsb (isinstance1 p) classes.

(** [isinstance(getattr(p, "contained", None), classes)]: [None] is an
    instance of none of them. *)
Definition isinstance_opt (o : option Property) (classes : list RefClass) : bool :=
  match o with
  | Some p => isinstance p classes
  | None => false
  end.

(** ** Dictionaries in insertion order *)

Module Dict.
Section WithValue.
Context {V : Type}.

Definition t := list (string * V).

Definition keys (d : t) : list string := map fst d.

Fixpoint get (k : string) (d : t) : option V :=
  match d with
  | [] => None
  | (k', v) :: r => if String.eqb k' k then Some v else get k r
  end.

(** [d[k] = v]: an existing key keeps its position, a new key goes last. *)
Fixpoint set (k : string) (v : V) (d : t) : t :=
  match d with
  | [] => [(k, v)]
  | (k', v') :: r =>
      if String.eqb k' k then (k', v) :: r else (k', v') :: set k v r
  end.

(** Feeding items into a dict one after the other. *)
Definition update (d : t) (items : list (string * V)) : t :=
  fold_left (fun acc kv => set (fst kv) (snd kv) acc) items d.

(** The display [{**a, **b}]. *)
Definition merge (a b : t) : t := update (update [] a) b.

(** [not d] *)
Definition is_empty (d : t) : bool :=
  match d with [] => true | _ => false end.

End WithValue.
Arguments t : clear implicits.
End Dict.

(** ** Exceptions *)

(** The messages of the [ValueError]s, by the statement that raises them. *)
Inductive ValueErrorMsg : Type :=
  (** "<name!r> is named like a reference property but is not a subclass of
      any of <types!r>." *)
  | NotReferenceProperty (prop_name : string) (types : list RefClass)
  (** "<name!r> is named like a reference list property but is not a
      'ListProperty' containing a subclass of any of <types!r>." *)
  | NotReferenceListProperty (prop_name : string) (types : list RefClass)
  (** "Property name '<name>' must begin with an alpha character." *)
  | PropertyNameNotAlpha (prop_name : string)
  (** "'<name>' must be created with the @CustomObject decorator." *)
  | NotCustomObject (class_name : string)
  (** "Invalid extension type name '<type>': must end with '-ext' or start
      with 'extension-definition--<UUID>'." *)
  | InvalidExtensionTypeName (ext_type : string)
  (** "Invalid extension: must define at least one property: <type>" *)
  | ExtensionWithoutProperties (ext_type : string)
  (** Raised by the collaborator [properties._validate_type]. *)
  | InvalidTypeName (type_name : string) (detail : string).

Inductive Exception : Type :=
  | ValueError (msg : ValueErrorMsg)
  | DuplicateRegistrationError (category : string) (type_name : string)
  (** attribute lookup on an object that lacks the attribute *)
  | AttributeError (obj : pyvalue) (attr : string)
  (** subscript of a dict with a missing key *)
  | KeyError (key : pyvalue).

Inductive outcome (A : Type) : Type :=
  | Ok (a : A)
  | Raise (e : Exception).
Arguments Ok {A} a.
Arguments Raise {A} e.

Definition raised {A} (o : outcome A) : bool :=
  match o with Raise _ => true | Ok _ => false end.

(** ** The registry and the monad of the registration operations

    [registry.STIX2_OBJ_MAPS] maps a version string to that version's catalog,
    a dict from a namespace key (['objects'], ['markings'], ['observables'],
    ['extensions']) to the dict of the registered types of that namespace.
    The catalogs of different versions are separate objects. *)

(** A class handed to a registration function, as far as the module reads it:
    [__name__], [_type], [_properties], the optional [_toplevel_properties]
    and the answer of [issubclass(new_type, _DomainObject)]. *)
Record PyType : Type :=
  mkPyType {
    __name__ : string;
    _type : string;
    _properties : Dict.t Property;
    _toplevel_properties : option (Dict.t Property);
    is_DomainObject : bool
  }.

Abbreviation Namespace := (gmap string PyType).
Abbreviation Catalog := (gmap string (gmap string PyType)).
Abbreviation Registry := (gmap string (gmap string (gmap string PyType))).

(** A computation reads and updates the registry and returns or raises; the
    registry it leaves behind is observable in both cases. *)
Definition M (A : Type) : Type := Registry -> outcome A * Registry.

Definition ret {A} (a : A) : M A := fun reg => (Ok a, reg).

Definition raise {A} (e : Exception) : M A := fun reg => (Raise e, reg).

Definition bind {A B} (m : M A) (k : A -> M B) : M B :=
  fun reg =>
    match m reg with
    | (Ok a, reg') => k a reg'
    | (Raise e, reg') => (Raise e, reg')
    end.

(** A call of a function that does not touch the registry. *)
Definition lift {A} (o : outcome A) : M A := fun reg => (o, reg).

Declare Scope py_scope.
Delimit Scope py_scope with py.
Notation "x <- m ;; k" := (bind m (fun x => k))
  (at level 100, m at next level, right associativity) : py_scope.
Notation "m ;; k" := (bind m (fun _ => k))
  (at level 100, right associativity) : py_scope.

(** A reference to the dict [STIX2_OBJ_MAPS[version][namespace]]. *)
Record dictref : Type := DictRef { ref_version : string; ref_namespace : string }.

(** [registry.STIX2_OBJ_MAPS[version][namespace]]: either subscript raises
    [KeyError] on a missing key. *)
Definition STIX2_OBJ_MAPS_getitem (version : pyvalue) (namespace : string)
  : M dictref :=
  fun reg =>
    match version with
    | PyNone => (Raise (KeyError PyNone), reg)
    | PyStr v =>
        match reg !! v with
        | None => (Raise (KeyError version), reg)
        | Some catalog =>
            match catalog !! namespace with
            | None => (Raise (KeyError (PyStr namespace)), reg)
            | Some _ => (Ok (DictRef v namespace), reg)
            end
        end
    end.

(** The dict a reference points to. *)
Definition deref (r : dictref) (reg : Registry) : Namespace :=
  default ∅ (reg !! ref_version r ≫= fun catalog => catalog !! ref_namespace r).

(** [key in d] and [key in d.keys()] *)
Definition dict_contains (r : dictref) (key : string) : M bool :=
  fun reg => (Ok (bool_decide (is_Some (deref r reg !! key))), reg).

(** [d[key] = value], in place. *)
Definition dict_setitem (r : dictref) (key : string) (value : PyType) : M unit :=
  fun reg =>
    (Ok tt,
     alter (alter (insert key value) (ref_namespace r)) (ref_version r) reg).

(** Attribute access on a [version] argument: neither [None] nor a [str] has
    any of the attributes the module asks for. *)
Definition getattr (obj : pyvalue) (attr : string) : M pyvalue :=
  raise (AttributeError obj attr).

Definition when (b : bool) (m : M unit) : M unit :=
  if b then m else ret tt.

(** ** [_validate_ref_props] *)

Definition _VERSION_REF_TYPES_MAP : Dict.t (list RefClass) :=
  [ ("2.0", [ObjectReferenceProperty; ReferenceProperty]);
    ("2.1", [ReferenceProperty]) ].

Definition _UNKNOWN_VERSION_REF_TYPES : list RefClass :=
  default [] (Dict.get "2.1" _VERSION_REF_TYPES_MAP).

(** [try: _VERSION_REF_TYPES_MAP[version] except KeyError: ...]; [None] is a
    hashable key that the table does not hold. *)
Definition ref_prop_types_of (version : pyvalue) : list RefClass :=
  match version with
  | PyNone => _UNKNOWN_VERSION_REF_TYPES
  | PyStr v =>
      match Dict.get v _VERSION_REF_TYPES_MAP with
      | Some types => types
      | None => _UNKNOWN_VERSION_REF_TYPES
      end
  end.

(** [for name, obj in d.items(): body], left at the first exception. *)
Fixpoint for_items {V} (body : string -> V -> outcome unit) (d : Dict.t V)
  : outcome unit :=
  match d with
  | [] => Ok tt
  | (k, v) :: r =>
      match body k v with
      | Ok _ => for_items body r
      | Raise e => Raise e
      end
  end.

(** [prop_name.rsplit("_", 1)[-1]] *)
Definition tail_of (prop_name : string) : string :=
  Str.last_item (Str.rsplit1 "_" prop_name).

(** [all((a, b))] *)
Definition all2 (a b : bool) : bool := forallb (fun x => x) [a; b].

(** The body of the loop of [_validate_ref_props]. *)
Definition check_ref_prop (ref_prop_types : list RefClass)
    (prop_name : string) (prop_obj : Property) : outcome unit :=
  let tail := tail_of prop_name in
  if String.eqb tail "ref" && negb (isinstance prop_obj ref_prop_types) then
    Raise (ValueError (NotReferenceProperty prop_name ref_prop_types))
  else if String.eqb tail "refs"
          && negb (all2 (is_ListProperty prop_obj)
                        (isinstance_opt (contained prop_obj) ref_prop_types)) then
    Raise (ValueError (NotReferenceListProperty prop_name ref_prop_types))
  else Ok tt.

Definition _validate_ref_props (props_map : Dict.t Property) (version : pyvalue)
  : outcome unit :=
  let ref_prop_types := ref_prop_types_of version in
  for_items (check_ref_prop ref_prop_types) props_map.

(** ** Registration, over the collaborators the module imports *)

Inductive Kind : Type := DomainObjects | Markings | Observables | Extensions.

#[global] Instance Kind_eq_dec : EqDecision Kind.
Proof. solve_decision. Defined.

Definition namespace_key (k : Kind) : string :=
  match k with
  | DomainObjects => "objects"
  | Markings => "markings"
  | Observables => "observables"
  | Extensions => "extensions"
  end.

Definition category (k : Kind) : string :=
  match k with
  | DomainObjects => "STIX Object"
  | Markings => "STIX Marking"
  | Observables => "Cyber Observable"
  | Extensions => "Extension"
  end.

Section Registration.

(** [re.match(PREFIX_21_REGEX, name)] finds a match; the pattern is a
    constant of [utils]. *)
Variable PREFIX_21_REGEX_match : string -> bool.

(** [properties._validate_type(type_, version)] returns or raises. *)
Variable _validate_type : string -> pyvalue -> outcome unit.

(** [version.DEFAULT_VERSION], read when the [def] statements run. *)
Variable DEFAULT_VERSION : pyvalue.

Definition check_prop_name (prop_name : string) (prop_value : Property)
  : outcome unit :=
  if negb (PREFIX_21_REGEX_match prop_name) then
    Raise (ValueError (PropertyNameNotAlpha prop_name))
  else Ok tt.

Definition _validate_props (props_map : Dict.t Property) (version : pyvalue)
  : outcome unit :=
  match (if negb (py_eq_str version "2.0")
         then for_items check_prop_name props_map
         else Ok tt) with
  | Raise e => Raise e
  | Ok _ => _validate_ref_props props_map version
  end.

Local Open Scope py_scope.

(** Inside the four functions the parameter [version] hides the module
    [version] of the import line, so [version.DEFAULT_VERSION] in a body is an
    attribute access on the argument. *)
Definition _register_object (new_type : PyType) (version : pyvalue) : M unit :=
  when (negb (is_DomainObject new_type))
       (raise (ValueError (NotCustomObject (__name__ new_type)))) ;;
  version <- (if negb (truthy version)
              then getattr version "DEFAULT_VERSION"
              else ret version) ;;
  lift (_validate_props (_properties new_type) version) ;;
  OBJ_MAP <- STIX2_OBJ_MAPS_getitem version "objects" ;;
  present <- dict_contains OBJ_MAP (_type new_type) ;;
  when present
       (raise (DuplicateRegistrationError "STIX Object" (_type new_type))) ;;
  dict_setitem OBJ_MAP (_type new_type) new_type.

Definition _register_marking (new_marking : PyType) (version : pyvalue) : M unit :=
  version <- (if negb (truthy version)
              then getattr version "DEFAULT_VERSION"
              else ret version) ;;
  let mark_type := _type new_marking in
  lift (_validate_type mark_type version) ;;
  lift (_validate_props (_properties new_marking) version) ;;
  OBJ_MAP_MARKING <- STIX2_OBJ_MAPS_getitem version "markings" ;;
  present <- dict_contains OBJ_MAP_MARKING mark_type ;;
  when present (raise (DuplicateRegistrationError "STIX Marking" mark_type)) ;;
  dict_setitem OBJ_MAP_MARKING mark_type new_marking.

Definition _register_observable (new_observable : PyType) (version : pyvalue)
  : M unit :=
  version <- (if negb (truthy version)
              then getattr version "DEFAULT_VERSION"
              else ret version) ;;
  lift (_validate_props (_properties new_observable) version) ;;
  OBJ_MAP_OBSERVABLE <- STIX2_OBJ_MAPS_getitem version "observables" ;;
  present <- dict_contains OBJ_MAP_OBSERVABLE (_type new_observable) ;;
  when present
       (raise (DuplicateRegistrationError "Cyber Observable"
                                          (_type new_observable))) ;;
  dict_setitem OBJ_MAP_OBSERVABLE (_type new_observable) new_observable.

(** [{**new_extension._properties,
      **getattr(new_extension, "_toplevel_properties", dict())}] *)
Definition combined_props_of (new_extension : PyType) : Dict.t Property :=
  Dict.merge (_properties new_extension)
             (default [] (_toplevel_properties new_extension)).

Definition _register_extension (new_extension : PyType) (version : pyvalue)
  : M unit :=
  let ext_type := _type new_extension in
  lift (_validate_type ext_type version) ;;
  when (py_eq_str version "2.1")
       (when (negb (Str.endswith ext_type "-ext"
                    || Str.startswith ext_type "extension-definition--"))
             (raise (ValueError (InvalidExtensionTypeName ext_type)))) ;;
  let combined_props := combined_props_of new_extension in
  when (Dict.is_empty combined_props)
       (raise (ValueError (ExtensionWithoutProperties ext_type))) ;;
  lift (_validate_props combined_props version) ;;
  EXT_MAP <- STIX2_OBJ_MAPS_getitem version "extensions" ;;
  present <- dict_contains EXT_MAP ext_type ;;
  when present (raise (DuplicateRegistrationError "Extension" ext_type)) ;;
  dict_setitem EXT_MAP ext_type new_extension.

(** The registration function of a namespace. *)
Definition register (k : Kind) : PyType -> pyvalue -> M unit :=
  match k with
  | DomainObjects => _register_object
  | Markings => _register_marking
  | Observables => _register_observable
  | Extensions => _register_extension
  end.

(** A call [f(new_type)] or [f(new_type, version)]: a missing argument takes
    the default of the signature. *)
Definition call (k : Kind) (new_type : PyType) (arg : option pyvalue) : M unit :=
  register k new_type (default DEFAULT_VERSION arg).

End Registration.

(** ** The two phases of a registration

    Every registration function first runs checks that only read its
    arguments, and then works on the registry: subscript, membership test,
    insertion.  [gate] is the first phase (it yields the resolved version),
    [store] the second; [register_phases] below shows that each function is
    the one followed by the other. *)

Section Phases.

Variable PREFIX_21_REGEX_match : string -> bool.
Variable _validate_type : string -> pyvalue -> outcome unit.

Definition resolve_version (version : pyvalue) : outcome pyvalue :=
  if negb (truthy version)
  then Raise (AttributeError version "DEFAULT_VERSION")
  else Ok version.

Definition seq_checks (a b : outcome unit) : outcome unit :=
  match a with Raise e => Raise e | Ok _ => b end.

Definition guard (b : bool) (e : Exception) : outcome unit :=
  if b then Raise e else Ok tt.

Definition gate (k : Kind) (t : PyType) (version : pyvalue) : outcome pyvalue :=
  match k with
  | DomainObjects =>
      match guard (negb (is_DomainObject t))
                  (ValueError (NotCustomObject (__name__ t))) with
      | Raise e => Raise e
      | Ok _ =>
          match resolve_version version with
          | Raise e => Raise e
          | Ok v =>
              match _validate_props PREFIX_21_REGEX_match (_properties t) v with
              | Raise e => Raise e
              | Ok _ => Ok v
              end
          end
      end
  | Markings =>
      match resolve_version version with
      | Raise e => Raise e
      | Ok v =>
          match seq_checks (_validate_type (_type t) v)
                  (_validate_props PREFIX_21_REGEX_match (_properties t) v) with
          | Raise e => Raise e
          | Ok _ => Ok v
          end
      end
  | Observables =>
      match resolve_version version with
      | Raise e => Raise e
      | Ok v =>
          match _validate_props PREFIX_21_REGEX_match (_properties t) v with
          | Raise e => Raise e
          | Ok _ => Ok v
          end
      end
  | Extensions =>
      match
        seq_checks (_validate_type (_type t) version)
          (seq_checks
             (guard (py_eq_str version "2.1"
                     && negb (Str.endswith (_type t) "-ext"
                              || Str.startswith (_type t)
                                                "extension-definition--"))
                    (ValueError (InvalidExtensionTypeName (_type t))))
             (seq_checks
                (guard (Dict.is_empty (combined_props_of t))
                       (ValueError (ExtensionWithoutProperties (_type t))))
                (_validate_props PREFIX_21_REGEX_match (combined_props_of t)
                                 version)))
      with
      | Raise e => Raise e
      | Ok _ => Ok version
      end
  end.

End Phases.

Definition store (k : Kind) (t : PyType) (version : pyvalue) : M unit :=
  (d <- STIX2_OBJ_MAPS_getitem version (namespace_key k) ;;
   present <- dict_contains d (_type t) ;;
   when present (raise (DuplicateRegistrationError (category k) (_type t))) ;;
   dict_setitem d (_type t) t)%py.

(** The registry after [t] went into namespace [k] of version [v]. *)
Definition registered (k : Kind) (v : string) (t : PyType) (reg : Registry)
  : Registry :=
  alter (alter (insert (_type t) t) (namespace_key k)) v reg.

(** The type registered under an identifier, if any. *)
Definition lookup_type (k : Kind) (v : string) (name : string) (reg : Registry)
  : option PyType :=
  deref (DictRef v (namespace_key k)) reg !! name.

(** ** Collaborators and values for the examples *)

Definition is_alpha (c : ascii) : bool :=
  let n := nat_of_ascii c in
  ((65 <=? n) && (n <=? 90) || (97 <=? n) && (n <=? 122))%nat.

(** Modelled from the spec: [utils.PREFIX_21_REGEX] is not in this module; the
    spec words it as "begins with an alphabetic character (the rest of the
    name is otherwise unconstrained)". *)
Definition begins_with_alpha (name : string) : bool :=
  match name with
  | EmptyString => false
  | String c _ => is_alpha c
  end.

Definition is_ident_char (c : ascii) : bool :=
  let n := nat_of_ascii c in
  ((97 <=? n) && (n <=? 122) || (48 <=? n) && (n <=? 57) || (n =? 45))%nat.

Fixpoint all_chars (f : ascii -> bool) (s : string) : bool :=
  match s with
  | EmptyString => true
  | String c r => f c && all_chars f r
  end.

(** Modelled from the spec: [properties._validate_type] is not in this module
    and the spec leaves its grammar to the collaborator.  This instance
    accepts the identifiers made of lower-case letters, digits and hyphens, as
    the identifiers of the spec's examples are. *)
Definition lenient_validate_type (type_ : string) (version : pyvalue)
  : outcome unit :=
  if all_chars is_ident_char type_ then Ok tt
  else Raise (ValueError (InvalidTypeName type_ "characters")).

Definition is_hex (c : ascii) : bool :=
  let n := nat_of_ascii c in
  ((48 <=? n) && (n <=? 57) || (97 <=? n) && (n <=? 102)
   || (65 <=? n) && (n <=? 70))%nat.

Fixpoint uuid_chars (i : nat) (s : string) : bool :=
  match s with
  | EmptyString => true
  | String c r =>
      (if (i =? 8) || (i =? 13) || (i =? 18) || (i =? 23)
       then Ascii.eqb c "-" else is_hex c)%nat
      && uuid_chars (S i) r
  end.

(** Modelled from the spec: a "UUID-shaped token", five groups of 8, 4, 4, 4
    and 12 hexadecimal digits joined by hyphens. *)
Definition uuid_shaped (s : string) : bool :=
  (String.length s =? 36)%nat && uuid_chars 0 s.

(** What follows the 22 characters of ['extension-definition--']. *)
Definition after_prefix (s : string) : string :=
  String.substring 22 (String.length s - 22) s.

Definition plain_property : Property := mkProperty false false false None.
Definition reference_property : Property := mkProperty false true false None.
Definition object_reference_property : Property :=
  mkProperty false false true None.
Definition list_property (c : Property) : Property :=
  mkProperty true false false (Some c).

(** A property that is not a list but carries a [contained] reference. *)
Definition not_a_list_with_contained : Property :=
  mkProperty false false false (Some reference_property).

(** Empty catalogs for the two baseline versions. *)
Definition empty_catalog : Catalog :=
  {[ "objects" := ∅; "markings" := ∅; "observables" := ∅; "extensions" := ∅ ]}.

Definition empty_registry : Registry :=
  {[ "2.0" := empty_catalog; "2.1" := empty_catalog ]}.

(** A declared custom object with a conformant property set. *)
Definition widget : PyType :=
  mkPyType "Widget" "x-widget"
    [("name", plain_property); ("owner_ref", reference_property)] None true.

(** A class that did not go through the decorator, with a property name
    that no version after "2.0" accepts. *)
Definition undeclared_widget : PyType :=
  mkPyType "Widget" "x-widget" [("1bad", plain_property)] None false.

(** An extension whose identifier has the prefix, followed by "foo". *)
Definition prefixed_extension : PyType :=
  mkPyType "FooExtension" "extension-definition--foo"
    [("rank", plain_property)] None false.

(** An extension whose top-level property set redefines [target_ref]. *)
Definition overriding_extension : PyType :=
  mkPyType "TargetExtension" "target-ext"
    [("target_ref", reference_property); ("rank", plain_property)]
    (Some [("target_ref", plain_property)]) false.

(** The dict [STIX2_OBJ_MAPS[v][namespace]], when both keys are there. *)
Definition namespace_at (k : Kind) (v : string) (reg : Registry)
  : option Namespace :=
  reg !! v ≫= fun catalog => catalog !! namespace_key k.

(** [c in s] for a character. *)
Fixpoint contains_char (c : ascii) (s : string) : bool :=
  match s with
  | EmptyString => false
  | String c' r => Ascii.eqb c' c || contains_char c r
  end.

(** A custom observable with a list of references. *)
Definition sensor : PyType :=
  mkPyType "Sensor" "x-sensor"
    [("label", plain_property);
     ("target_refs", list_property reference_property)] None false.

(** * Properties *)

(** ** Small facts about the Python values *)

Lemma py_eq_str_true (v : pyvalue) (s : string) :
  py_eq_str v s = true <-> v = PyStr s.
Proof.
  destruct v as [|s']; simpl.
  - split; discriminate.
  - rewrite String.eqb_eq. split; [intros ->; reflexivity | congruence].
Qed.

Lemma py_eq_str_false (v : pyvalue) (s : string) :
  py_eq_str v s = false <-> v <> PyStr s.
Proof.
  rewrite <- py_eq_str_true. destruct (py_eq_str v s); split; congruence.
Qed.

(** ** Loops over the items of a dict *)

Lemma for_items_raised {V} (body : string -> V -> outcome unit) (d : Dict.t V)
    (k : string) (v : V) :
  In (k, v) d -> raised (body k v) = true -> raised (for_items body d) = true.
Proof.
  induction d as [|[k' v'] r IH]; simpl; [tauto|].
  intros [Heq | Hin] Hr.
  - injection Heq as -> ->. destruct (body k v); [discriminate | reflexivity].
  - destruct (body k' v'); [auto | reflexivity].
Qed.

Lemma for_items_ok {V} (body : string -> V -> outcome unit) (d : Dict.t V) :
  for_items body d = Ok tt <-> (forall k v, In (k, v) d -> body k v = Ok tt).
Proof.
  induction d as [|[k' v'] r IH]; simpl.
  - split; [intros _ k v [] | reflexivity].
  - destruct (body k' v') as [[]|e] eqn:Hb.
    + rewrite IH. split.
      * intros H k v [Heq | Hin]; [injection Heq as <- <-; exact Hb | auto].
      * intros H k v Hin. apply H. right. exact Hin.
    + split; [discriminate|].
      intros H. specialize (H k' v' (or_introl eq_refl)). congruence.
Qed.

(** The naming loop stops at the first name the pattern does not match. *)
Lemma naming_loop_find (matches : string -> bool) (d : Dict.t Property) :
  for_items (check_prop_name matches) d =
  match find (fun n => negb (matches n)) (Dict.keys d) with
  | Some n => Raise (ValueError (PropertyNameNotAlpha n))
  | None => Ok tt
  end.
Proof.
  induction d as [|[k v] r IH]; simpl; [reflexivity|].
  unfold check_prop_name at 1. destruct (negb (matches k)); [reflexivity|].
  exact IH.
Qed.

(** ** The body of the reference loop, by the tail of the name *)

Lemma check_ref_prop_ref (types : list RefClass) (name : string) (p : Property) :
  tail_of name = "ref" ->
  check_ref_prop types name p =
  if isinstance p types then Ok tt
  else Raise (ValueError (NotReferenceProperty name types)).
Proof.
  intros Ht. unfold check_ref_prop. rewrite Ht. simpl.
  destruct (isinstance p types); reflexivity.
Qed.

Lemma check_ref_prop_refs (types : list RefClass) (name : string) (p : Property) :
  tail_of name = "refs" ->
  check_ref_prop types name p =
  if is_ListProperty p && isinstance_opt (contained p) types then Ok tt
  else Raise (ValueError (NotReferenceListProperty name types)).
Proof.
  intros Ht. unfold check_ref_prop, all2. rewrite Ht. simpl.
  rewrite andb_true_r.
  destruct (is_ListProperty p && isinstance_opt (contained p) types);
    reflexivity.
Qed.

(** Names with any other tail, such as [ref_count], pass whatever the
    property is. *)
Lemma check_ref_prop_other (types : list RefClass) (name : string) (p : Property) :
  tail_of name <> "ref" -> tail_of name <> "refs" ->
  check_ref_prop types name p = Ok tt.
Proof.
  intros H1 H2. unfold check_ref_prop.
  apply String.eqb_neq in H1, H2. rewrite H1, H2. reflexivity.
Qed.

Example ref_count_is_exempt (version : pyvalue) (p : Property) :
  _validate_ref_props [("ref_count", p)] version = Ok tt.
Proof.
  unfold _validate_ref_props. cbn [for_items].
  rewrite check_ref_prop_other; [reflexivity | | ]; vm_compute; discriminate.
Qed.

Lemma validate_props_raised (matches : string -> bool) (d : Dict.t Property)
    (version : pyvalue) :
  raised (_validate_ref_props d version) = true ->
  raised (_validate_props matches d version) = true.
Proof.
  intros H. unfold _validate_props.
  destruct (if negb (py_eq_str version "2.0") then _ else _);
    [exact H | reflexivity].
Qed.

(** ** The version table *)

Lemma ref_prop_types_20 :
  ref_prop_types_of (PyStr "2.0") = [ObjectReferenceProperty; ReferenceProperty].
Proof. reflexivity. Qed.

Lemma ref_prop_types_21 :
  ref_prop_types_of (PyStr "2.1") = [ReferenceProperty].
Proof. reflexivity. Qed.

Lemma ref_prop_types_unknown (version : pyvalue) :
  version <> PyStr "2.0" -> version <> PyStr "2.1" ->
  ref_prop_types_of version = ref_prop_types_of (PyStr "2.1").
Proof.
  intros H0 H1. destruct version as [|s]; [reflexivity|].
  assert (E0 : String.eqb "2.0" s = false)
    by (apply String.eqb_neq; congruence).
  assert (E1 : String.eqb "2.1" s = false)
    by (apply String.eqb_neq; congruence).
  unfold ref_prop_types_of at 1, _VERSION_REF_TYPES_MAP.
  cbn [Dict.get]. rewrite E0, E1. reflexivity.
Qed.

(** ** Dictionaries *)

Lemma dict_get_set {V} (k k' : string) (v : V) (d : Dict.t V) :
  Dict.get k (Dict.set k' v d) =
  if String.eqb k' k then Some v else Dict.get k d.
Proof.
  induction d as [|[k0 v0] r IH]; simpl.
  - reflexivity.
  - destruct (String.eqb k0 k') eqn:E0; simpl.
    + apply String.eqb_eq in E0. subst k0.
      destruct (String.eqb k' k); reflexivity.
    + destruct (String.eqb k0 k) eqn:E1; [|exact IH].
      apply String.eqb_eq in E1. subst k0.
      rewrite String.eqb_sym, E0. reflexivity.
Qed.

Lemma dict_get_none_notin {V} (k : string) (d : Dict.t V) :
  ~ In k (Dict.keys d) -> Dict.get k d = None.
Proof.
  induction d as [|[k0 v0] r IH]; simpl; [reflexivity|].
  intros H. destruct (String.eqb k0 k) eqn:E.
  - apply String.eqb_eq in E. tauto.
  - apply IH. tauto.
Qed.

Lemma dict_get_update_other {V} (k : string) (items d : Dict.t V) :
  ~ In k (Dict.keys items) ->
  Dict.get k (Dict.update d items) = Dict.get k d.
Proof.
  unfold Dict.update. revert d.
  induction items as [|[k0 v0] r IH]; simpl; intros d H; [reflexivity|].
  rewrite IH by tauto. rewrite dict_get_set.
  destruct (String.eqb k0 k) eqn:E; [|reflexivity].
  apply String.eqb_eq in E. tauto.
Qed.

(** The items fed in last decide the value of their keys. *)
Lemma dict_get_update {V} (k : string) (v : V) (items d : Dict.t V) :
  List.NoDup (Dict.keys items) -> Dict.get k items = Some v ->
  Dict.get k (Dict.update d items) = Some v.
Proof.
  revert d.
  induction items as [|[k0 v0] r IH]; simpl; intros d Hnd Hget; [discriminate|].
  apply List.NoDup_cons_iff in Hnd as [Hnotin Hnd].
  destruct (String.eqb k0 k) eqn:E.
  - apply String.eqb_eq in E. subst k0. injection Hget as ->.
    change (Dict.get k (Dict.update (Dict.set k v d) r) = Some v).
    rewrite dict_get_update_other by exact Hnotin.
    rewrite dict_get_set, String.eqb_refl. reflexivity.
  - apply (IH (Dict.set k0 v0 d) Hnd Hget).
Qed.

(** Validation as the code branches: the naming loop, then the reference
    loop. *)
Lemma validate_props_by_cases
    (matches : string -> bool) (props : Dict.t Property) (version : pyvalue) :
  _validate_props matches props version =
  if py_eq_str version "2.0" then _validate_ref_props props version
  else
    match find (fun n => negb (matches n)) (Dict.keys props) with
    | Some n => Raise (ValueError (PropertyNameNotAlpha n))
    | None => _validate_ref_props props version
    end.
Proof.
  unfold _validate_props. destruct (py_eq_str version "2.0"); cbn [negb].
  - reflexivity.
  - rewrite naming_loop_find.
    destruct (find _ (Dict.keys props)); reflexivity.
Qed.

(** ** Claims about the conformance validator *)

(** C5. For every property set, the naming rule is applied under every
    version other than "2.0": validation then raises the error that names the
    first property name the pattern does not match, and goes on to the
    reference rule only when there is none.  Under "2.0" the naming rule is
    skipped altogether and validation is the reference rule alone. *)
Theorem naming_rule_applies_except_20
    (matches : string -> bool) (props : Dict.t Property) (version : pyvalue) :
  _validate_props matches props version =
  if decide (version = PyStr "2.0") then _validate_ref_props props version
  else
    match find (fun n => negb (matches n)) (Dict.keys props) with
    | Some n => Raise (ValueError (PropertyNameNotAlpha n))
    | None => _validate_ref_props props version
    end.
Proof.
  rewrite validate_props_by_cases.
  destruct (decide (version = PyStr "2.0")) as [->|Hne].
  - reflexivity.
  - apply py_eq_str_false in Hne. rewrite Hne. reflexivity.
Qed.

Example leading_digit_rejected_under_21 :
  _validate_props begins_with_alpha [("1bad", plain_property)] (PyStr "2.1")
  = Raise (ValueError (PropertyNameNotAlpha "1bad")).
Proof. reflexivity. Qed.

Example leading_digit_rejected_without_version :
  _validate_props begins_with_alpha [("1bad", plain_property)] PyNone
  = Raise (ValueError (PropertyNameNotAlpha "1bad")).
Proof. reflexivity. Qed.

Example leading_digit_accepted_under_20 :
  _validate_props begins_with_alpha [("1bad", plain_property)] (PyStr "2.0")
  = Ok tt.
Proof. reflexivity. Qed.

(** C6. A property whose name has the tail "ref" makes validation fail unless
    it is an instance of one of the version's reference classes, and passes
    the rule when it is; the classes come from the table, which has the
    distinct entries of "2.0" and "2.1", and every other version takes the
    entry of "2.1". *)
Theorem ref_name_needs_reference_class
    (matches : string -> bool) (props : Dict.t Property) (version : pyvalue)
    (name : string) (p : Property) :
  In (name, p) props ->
  tail_of name = "ref" ->
  (isinstance p (ref_prop_types_of version) = false ->
   _validate_ref_props props version <> Ok tt
   /\ _validate_props matches props version <> Ok tt)
  /\ (isinstance p (ref_prop_types_of version) = true ->
      check_ref_prop (ref_prop_types_of version) name p = Ok tt)
  /\ ref_prop_types_of (PyStr "2.0")
     = [ObjectReferenceProperty; ReferenceProperty]
  /\ ref_prop_types_of (PyStr "2.1") = [ReferenceProperty]
  /\ (forall v : pyvalue,
        v <> PyStr "2.0" -> v <> PyStr "2.1" ->
        ref_prop_types_of v = ref_prop_types_of (PyStr "2.1")).
Proof.
  intros Hin Htail. repeat split.
  - intros Hok.
    assert (Hr : raised (_validate_ref_props props version) = true).
    { apply (for_items_raised _ _ name p Hin).
      rewrite check_ref_prop_ref, H by exact Htail. reflexivity. }
    rewrite Hok in Hr. discriminate.
  - intros Hok.
    assert (Hr : raised (_validate_props matches props version) = true).
    { apply validate_props_raised.
      apply (for_items_raised _ _ name p Hin).
      rewrite check_ref_prop_ref, H by exact Htail. reflexivity. }
    rewrite Hok in Hr. discriminate.
  - intros Hi. rewrite check_ref_prop_ref, Hi by exact Htail. reflexivity.
  - exact ref_prop_types_unknown.
Qed.

Lemma ref_name_needs_reference_class_witness :
  In ("created_by_ref", object_reference_property)
     [("name", plain_property);
      ("created_by_ref", object_reference_property)]
  /\ tail_of "created_by_ref" = "ref"
  /\ isinstance object_reference_property (ref_prop_types_of (PyStr "2.1"))
     = false
  /\ _validate_props begins_with_alpha
       [("name", plain_property);
        ("created_by_ref", object_reference_property)] (PyStr "2.1")
     <> Ok tt.
Proof.
  assert (Hin : In ("created_by_ref", object_reference_property)
                   [("name", plain_property);
                    ("created_by_ref", object_reference_property)])
    by (right; left; reflexivity).
  split; [exact Hin|]. split; [reflexivity|]. split; [reflexivity|].
  exact (proj2 (proj1 (ref_name_needs_reference_class begins_with_alpha
                         _ (PyStr "2.1") _ _ Hin eq_refl) eq_refl)).
Defined.

Example object_reference_accepted_under_20 :
  _validate_props begins_with_alpha
    [("created_by_ref", object_reference_property)] (PyStr "2.0") = Ok tt.
Proof. reflexivity. Qed.

Example object_reference_rejected_under_future_version :
  _validate_props begins_with_alpha
    [("created_by_ref", object_reference_property)] (PyStr "3.0")
  = Raise (ValueError
             (NotReferenceProperty "created_by_ref" [ReferenceProperty])).
Proof. reflexivity. Qed.

(** C7. A property whose name has the tail "refs" makes validation fail
    unless it is a list property whose contained property is an instance of
    one of the version's reference classes; a property that is not a list
    property fails whatever its [contained] attribute is. *)
Theorem refs_name_needs_list_of_references
    (matches : string -> bool) (props : Dict.t Property) (version : pyvalue)
    (name : string) (p : Property) :
  In (name, p) props ->
  tail_of name = "refs" ->
  (is_ListProperty p
   && isinstance_opt (contained p) (ref_prop_types_of version) = false ->
   _validate_ref_props props version <> Ok tt
   /\ _validate_props matches props version <> Ok tt)
  /\ (is_ListProperty p = false ->
      _validate_ref_props props version <> Ok tt
      /\ _validate_props matches props version <> Ok tt)
  /\ (is_ListProperty p
      && isinstance_opt (contained p) (ref_prop_types_of version) = true ->
      check_ref_prop (ref_prop_types_of version) name p = Ok tt).
Proof.
  intros Hin Htail.
  assert (Hfail : is_ListProperty p
                  && isinstance_opt (contained p) (ref_prop_types_of version)
                  = false ->
                  _validate_ref_props props version <> Ok tt
                  /\ _validate_props matches props version <> Ok tt).
  { intros Hc.
    assert (Hr : raised (_validate_ref_props props version) = true).
    { apply (for_items_raised _ _ name p Hin).
      rewrite check_ref_prop_refs, Hc by exact Htail. reflexivity. }
    split; intros Hok.
    - rewrite Hok in Hr. discriminate.
    - apply (validate_props_raised matches) in Hr.
      rewrite Hok in Hr. discriminate. }
  split; [exact Hfail|]. split.
  - intros Hl. apply Hfail. rewrite Hl. reflexivity.
  - intros Hc. rewrite check_ref_prop_refs, Hc by exact Htail. reflexivity.
Qed.

Lemma refs_name_needs_list_of_references_witness :
  In ("object_refs", not_a_list_with_contained)
     [("object_refs", not_a_list_with_contained)]
  /\ tail_of "object_refs" = "refs"
  /\ is_ListProperty not_a_list_with_contained = false
  /\ _validate_props begins_with_alpha
       [("object_refs", not_a_list_with_contained)] (PyStr "2.1") <> Ok tt.
Proof.
  assert (Hin : In ("object_refs", not_a_list_with_contained)
                   [("object_refs", not_a_list_with_contained)])
    by (left; reflexivity).
  split; [exact Hin|]. split; [reflexivity|]. split; [reflexivity|].
  exact (proj2 (proj1 (proj2 (refs_name_needs_list_of_references
                                begins_with_alpha _ (PyStr "2.1") _ _
                                Hin eq_refl)) eq_refl)).
Defined.

Example list_of_references_accepted :
  _validate_props begins_with_alpha
    [("object_refs", list_property reference_property)] (PyStr "2.1") = Ok tt.
Proof. reflexivity. Qed.

Example list_of_strings_rejected :
  _validate_props begins_with_alpha
    [("object_refs", list_property plain_property)] (PyStr "2.1")
  = Raise (ValueError
             (NotReferenceListProperty "object_refs" [ReferenceProperty])).
Proof. reflexivity. Qed.

(** C8. The names "ref" and "refs" end neither in "_ref" nor in "_refs", yet
    the loop takes the whole name as its tail and holds the property to the
    reference rule: under every version a property of no reference class
    named "ref", and a property that is no list named "refs", are rejected. *)
Theorem bare_ref_names_are_checked (version : pyvalue) :
  Str.endswith "ref" "_ref" = false
  /\ Str.endswith "ref" "_refs" = false
  /\ Str.endswith "refs" "_ref" = false
  /\ Str.endswith "refs" "_refs" = false
  /\ _validate_ref_props [("ref", plain_property)] version
     = Raise (ValueError
                (NotReferenceProperty "ref" (ref_prop_types_of version)))
  /\ _validate_ref_props [("refs", plain_property)] version
     = Raise (ValueError
                (NotReferenceListProperty "refs" (ref_prop_types_of version)))
  /\ _validate_props begins_with_alpha [("ref", plain_property)] version
     = Raise (ValueError
                (NotReferenceProperty "ref" (ref_prop_types_of version))).
Proof.
  assert (Hi : isinstance plain_property (ref_prop_types_of version) = false).
  { unfold isinstance. apply not_true_is_false. intros H.
    apply existsb_exists in H as [c [_ Hc]]. destruct c; discriminate. }
  assert (H1 : _validate_ref_props [("ref", plain_property)] version
               = Raise (ValueError
                          (NotReferenceProperty "ref"
                             (ref_prop_types_of version)))).
  { unfold _validate_ref_props. cbn [for_items].
    rewrite check_ref_prop_ref, Hi by reflexivity. reflexivity. }
  do 4 (split; [reflexivity|]).
  split; [exact H1|]. split.
  - unfold _validate_ref_props. cbn [for_items].
    rewrite check_ref_prop_refs by reflexivity. reflexivity.
  - rewrite validate_props_by_cases, H1.
    destruct (py_eq_str version "2.0"); reflexivity.
Qed.

(** ** The registration functions, phase by phase *)

Lemma register_phases
    (matches : string -> bool) (validate_type : string -> pyvalue -> outcome unit)
    (k : Kind) (t : PyType) (version : pyvalue) (reg : Registry) :
  register matches validate_type k t version reg =
  match gate matches validate_type k t version with
  | Raise e => (Raise e, reg)
  | Ok v => store k t v reg
  end.
Proof.
  destruct k; cbn [register gate];
    unfold _register_object, _register_marking, _register_observable,
      _register_extension, resolve_version, guard, seq_checks, getattr.
  - unfold bind at 1, when at 1.
    destruct (negb (is_DomainObject t)); [reflexivity|].
    unfold ret at 1, bind at 1.
    destruct (negb (truthy version)); [reflexivity|].
    unfold ret at 1, bind at 1, lift.
    destruct (_validate_props matches (_properties t) version);
      reflexivity.
  - unfold bind at 1.
    destruct (negb (truthy version)); [reflexivity|].
    unfold ret at 1, bind at 1, lift at 1.
    destruct (validate_type (_type t) version); [|reflexivity].
    unfold bind at 1, lift.
    destruct (_validate_props matches (_properties t) version);
      reflexivity.
  - unfold bind at 1.
    destruct (negb (truthy version)); [reflexivity|].
    unfold ret at 1, bind at 1, lift.
    destruct (_validate_props matches (_properties t) version);
      reflexivity.
  - unfold bind at 1, lift at 1.
    destruct (validate_type (_type t) version); [|reflexivity].
    unfold bind at 1, when at 1 2.
    destruct (py_eq_str version "2.1"); cbn [andb].
    + destruct (negb (Str.endswith (_type t) "-ext"
                      || Str.startswith (_type t) "extension-definition--"));
        [reflexivity|].
      unfold ret at 1, bind at 1, when at 1.
      destruct (Dict.is_empty (combined_props_of t)); [reflexivity|].
      unfold ret at 1, bind at 1, lift.
      destruct (_validate_props matches (combined_props_of t) version);
        reflexivity.
    + unfold ret at 1, bind at 1, when at 1.
      destruct (Dict.is_empty (combined_props_of t)); [reflexivity|].
      unfold ret at 1, bind at 1, lift.
      destruct (_validate_props matches (combined_props_of t) version);
        reflexivity.
Qed.

(** The checks leave the version as the caller gave it. *)
Lemma gate_version
    (matches : string -> bool) (validate_type : string -> pyvalue -> outcome unit)
    (k : Kind) (t : PyType) (version v : pyvalue) :
  gate matches validate_type k t version = Ok v -> v = version.
Proof.
  destruct k; cbn [gate]; unfold resolve_version, guard, seq_checks;
    repeat match goal with
      | |- context [if ?b then _ else _] =>
          lazymatch b with
          | context [if _ then _ else _] => fail
          | _ => destruct b
          end
      end;
    repeat match goal with
      | |- context [match ?x with Ok _ => _ | Raise _ => _ end] =>
          lazymatch x with
          | context [match _ with Ok _ => _ | Raise _ => _ end] => fail
          | _ => destruct x
          end
      end; congruence.
Qed.

(** The second phase, by what the registry holds. *)
Lemma store_run (k : Kind) (t : PyType) (version : pyvalue) (reg : Registry) :
  store k t version reg =
  match version with
  | PyNone => (Raise (KeyError PyNone), reg)
  | PyStr v =>
      match reg !! v with
      | None => (Raise (KeyError version), reg)
      | Some catalog =>
          match catalog !! namespace_key k with
          | None => (Raise (KeyError (PyStr (namespace_key k))), reg)
          | Some types =>
              match types !! _type t with
              | Some _ =>
                  (Raise (DuplicateRegistrationError (category k) (_type t)),
                   reg)
              | None => (Ok tt, registered k v t reg)
              end
          end
      end
  end.
Proof.
  unfold store, bind, STIX2_OBJ_MAPS_getitem.
  destruct version as [|v]; [reflexivity|].
  destruct (reg !! v) as [catalog|] eqn:Hv; [|reflexivity].
  destruct (catalog !! namespace_key k) as [types|] eqn:Hk; [|reflexivity].
  unfold dict_contains, deref. cbn [ref_version ref_namespace].
  rewrite Hv. cbn [mbind option_bind]. rewrite Hk. cbn [from_option id].
  destruct (types !! _type t) as [old|] eqn:Ht.
  - rewrite bool_decide_eq_true_2 by eauto. reflexivity.
  - rewrite bool_decide_eq_false_2 by (intros [? ?]; discriminate).
    reflexivity.
Qed.

Lemma namespace_key_inj (k k' : Kind) :
  namespace_key k = namespace_key k' -> k = k'.
Proof. destruct k, k'; simpl; intros H; congruence. Qed.

(** What a successful registration tells about the registry before it. *)
Lemma register_ok_inv
    (matches : string -> bool) (validate_type : string -> pyvalue -> outcome unit)
    (k : Kind) (t : PyType) (version : pyvalue) (reg reg1 : Registry) :
  register matches validate_type k t version reg = (Ok tt, reg1) ->
  gate matches validate_type k t version = Ok version
  /\ exists (v : string) (catalog : Catalog) (types : Namespace),
       version = PyStr v
       /\ reg !! v = Some catalog
       /\ catalog !! namespace_key k = Some types
       /\ types !! _type t = None
       /\ reg1 = registered k v t reg.
Proof.
  rewrite register_phases.
  destruct (gate matches validate_type k t version) as [v0|e] eqn:Hg;
    [|discriminate].
  apply gate_version in Hg as Hv0. subst v0.
  rewrite store_run. intros H. split; [reflexivity|].
  destruct version as [|v]; [discriminate|].
  destruct (reg !! v) as [catalog|] eqn:Hv; [|discriminate].
  destruct (catalog !! namespace_key k) as [types|] eqn:Hk; [|discriminate].
  destruct (types !! _type t) as [old|] eqn:Ht; [discriminate|].
  exists v, catalog, types. injection H as <-. auto.
Qed.

(** The catalog of a version after a registration into it. *)
Lemma registered_lookup
    (k : Kind) (v v' : string) (t : PyType) (reg : Registry) :
  registered k v t reg !! v' =
  if decide (v = v')
  then alter (insert (_type t) t) (namespace_key k) <$> reg !! v
  else reg !! v'.
Proof. unfold registered. apply lookup_alter. Qed.

Lemma lookup_type_registered
    (k : Kind) (v : string) (t : PyType) (reg : Registry)
    (catalog : Catalog) (types : Namespace) :
  reg !! v = Some catalog -> catalog !! namespace_key k = Some types ->
  lookup_type k v (_type t) (registered k v t reg) = Some t.
Proof.
  intros Hv Hk. unfold lookup_type, deref. cbn [ref_version ref_namespace].
  rewrite registered_lookup, decide_True, Hv by reflexivity.
  cbn [fmap option_fmap option_map mbind option_bind].
  rewrite lookup_alter_eq, Hk. cbn [fmap option_fmap option_map from_option id].
  apply lookup_insert_eq.
Qed.

Lemma lookup_type_registered_other
    (k k' : Kind) (v v' name : string) (t : PyType) (reg : Registry) :
  (k', v', name) <> (k, v, _type t) ->
  lookup_type k' v' name (registered k v t reg) = lookup_type k' v' name reg.
Proof.
  intros Hne. unfold lookup_type, deref. cbn [ref_version ref_namespace].
  rewrite registered_lookup. destruct (decide (v = v')) as [<-|Hv];
    [|reflexivity].
  destruct (reg !! v) as [catalog|]; [|reflexivity].
  cbn [fmap option_fmap option_map mbind option_bind].
  destruct (decide (k = k')) as [<-|Hk].
  - rewrite lookup_alter_eq.
    destruct (catalog !! namespace_key k) as [types|]; [|reflexivity].
    cbn [fmap option_fmap option_map from_option id].
    apply lookup_insert_ne. congruence.
  - rewrite lookup_alter_ne; [reflexivity|].
    intros H. apply namespace_key_inj in H. contradiction.
Qed.

(** A registration into one namespace of one version does not change what
    the second phase answers for another namespace or another version. *)
Lemma store_elsewhere
    (k k' : Kind) (v : string) (version' : pyvalue) (t t' : PyType)
    (reg : Registry) :
  (k', version') <> (k, PyStr v) ->
  fst (store k' t' version' (registered k v t reg))
  = fst (store k' t' version' reg).
Proof.
  intros Hne. rewrite !store_run.
  destruct version' as [|v']; [reflexivity|].
  rewrite registered_lookup. destruct (decide (v = v')) as [<-|Hv].
  2:{ destruct (reg !! v') as [catalog|]; [|reflexivity].
      destruct (catalog !! namespace_key k') as [types|]; [|reflexivity].
      destruct (types !! _type t'); reflexivity. }
  destruct (reg !! v) as [catalog|]; [|reflexivity].
  cbn [fmap option_fmap option_map].
  rewrite lookup_alter_ne.
  - destruct (catalog !! namespace_key k') as [types|]; [|reflexivity].
    destruct (types !! _type t'); reflexivity.
  - intros H. apply namespace_key_inj in H. congruence.
Qed.

Lemma store_registered_again
    (k : Kind) (v : string) (t t' : PyType) (reg : Registry)
    (catalog : Catalog) (types : Namespace) :
  reg !! v = Some catalog -> catalog !! namespace_key k = Some types ->
  _type t' = _type t ->
  store k t' (PyStr v) (registered k v t reg)
  = (Raise (DuplicateRegistrationError (category k) (_type t)),
     registered k v t reg).
Proof.
  intros Hv Hk Hid. rewrite store_run, registered_lookup.
  rewrite decide_True, Hv by reflexivity.
  cbn [fmap option_fmap option_map]. rewrite lookup_alter_eq, Hk.
  cbn [fmap option_fmap option_map]. rewrite Hid, lookup_insert_eq.
  reflexivity.
Qed.

Lemma lookup_type_of_namespace
    (k : Kind) (v name : string) (reg : Registry)
    (catalog : Catalog) (types : Namespace) :
  reg !! v = Some catalog -> catalog !! namespace_key k = Some types ->
  lookup_type k v name reg = types !! name.
Proof.
  intros Hv Hk. unfold lookup_type, deref. cbn [ref_version ref_namespace].
  rewrite Hv. cbn [mbind option_bind]. rewrite Hk. reflexivity.
Qed.

(** A registration whose checks pass and whose identifier is free goes in. *)
Lemma register_ok
    (matches : string -> bool) (validate_type : string -> pyvalue -> outcome unit)
    (k : Kind) (t : PyType) (v : string) (reg : Registry)
    (catalog : Catalog) (types : Namespace) :
  gate matches validate_type k t (PyStr v) = Ok (PyStr v) ->
  reg !! v = Some catalog -> catalog !! namespace_key k = Some types ->
  types !! _type t = None ->
  register matches validate_type k t (PyStr v) reg
  = (Ok tt, registered k v t reg).
Proof.
  intros Hg Hv Hk Hfree. rewrite register_phases, Hg, store_run, Hv, Hk, Hfree.
  reflexivity.
Qed.

(** A registration whose checks raise stops there. *)
Lemma register_gate_raise
    (matches : string -> bool) (validate_type : string -> pyvalue -> outcome unit)
    (k : Kind) (t : PyType) (version : pyvalue) (reg : Registry)
    (e : Exception) :
  gate matches validate_type k t version = Raise e ->
  register matches validate_type k t version reg = (Raise e, reg).
Proof. intros Hg. rewrite register_phases, Hg. reflexivity. Qed.

(** ** Claims about the registration operations *)

(** C1. With [None] as the version none of the three operations reaches the
    default: the parameter [version] hides the module of the same name, the
    attribute access is made on [None] and raises [AttributeError] (after the
    declaration check, for domain objects), and the registry is left alone. *)
Theorem none_version_raises_attribute_error
    (matches : string -> bool) (validate_type : string -> pyvalue -> outcome unit)
    (t : PyType) (reg : Registry) :
  _register_object matches t PyNone reg
  = (Raise (if is_DomainObject t
            then AttributeError PyNone "DEFAULT_VERSION"
            else ValueError (NotCustomObject (__name__ t))), reg)
  /\ _register_marking matches validate_type t PyNone reg
     = (Raise (AttributeError PyNone "DEFAULT_VERSION"), reg)
  /\ _register_observable matches t PyNone reg
     = (Raise (AttributeError PyNone "DEFAULT_VERSION"), reg).
Proof.
  split; [|split].
  - unfold _register_object, bind, when, getattr, raise, ret.
    destruct (is_DomainObject t); reflexivity.
  - reflexivity.
  - reflexivity.
Qed.

(** The same type goes in when the caller leaves the argument out or passes
    the default himself, and is refused with [None]. *)
Example version_left_out :
  call begins_with_alpha lenient_validate_type (PyStr "2.1")
       DomainObjects widget None empty_registry
  = (Ok tt, registered DomainObjects "2.1" widget empty_registry).
Proof.
  apply (register_ok _ _ DomainObjects widget "2.1" empty_registry
           empty_catalog ∅); reflexivity.
Qed.

Example version_default_passed :
  call begins_with_alpha lenient_validate_type (PyStr "2.1")
       DomainObjects widget (Some (PyStr "2.1")) empty_registry
  = (Ok tt, registered DomainObjects "2.1" widget empty_registry).
Proof.
  apply (register_ok _ _ DomainObjects widget "2.1" empty_registry
           empty_catalog ∅); reflexivity.
Qed.

Example version_none_passed :
  call begins_with_alpha lenient_validate_type (PyStr "2.1")
       DomainObjects widget (Some PyNone) empty_registry
  = (Raise (AttributeError PyNone "DEFAULT_VERSION"), empty_registry).
Proof. apply register_gate_raise. reflexivity. Qed.

(** C2. Under "2.1" an extension whose identifier starts with
    'extension-definition--' clears the naming check whatever follows the
    prefix: when the collaborator accepts the identifier, the merged property
    set is non-empty and conformant and the identifier is free, the extension
    is registered. *)
Theorem extension_prefix_alone_suffices
    (matches : string -> bool) (validate_type : string -> pyvalue -> outcome unit)
    (t : PyType) (reg : Registry) (catalog : Catalog) (types : Namespace) :
  Str.startswith (_type t) "extension-definition--" = true ->
  validate_type (_type t) (PyStr "2.1") = Ok tt ->
  Dict.is_empty (combined_props_of t) = false ->
  _validate_props matches (combined_props_of t) (PyStr "2.1") = Ok tt ->
  reg !! "2.1" = Some catalog ->
  catalog !! "extensions" = Some types ->
  types !! _type t = None ->
  _register_extension matches validate_type t (PyStr "2.1") reg
  = (Ok tt, registered Extensions "2.1" t reg).
Proof.
  intros Hpre Hvt Hne Hprops Hv Hk Hfree.
  change (_register_extension matches validate_type t (PyStr "2.1") reg)
    with (register matches validate_type Extensions t (PyStr "2.1") reg).
  rewrite register_phases. cbn [gate].
  rewrite Hvt, Hpre, Hne, Hprops, orb_true_r.
  cbn [py_eq_str String.eqb Ascii.eqb Bool.eqb negb andb guard seq_checks].
  rewrite store_run, Hv. cbn [namespace_key]. rewrite Hk, Hfree.
  reflexivity.
Qed.

Lemma extension_prefix_alone_suffices_witness :
  uuid_shaped (after_prefix (_type prefixed_extension)) = false
  /\ Str.endswith (_type prefixed_extension) "-ext" = false
  /\ _register_extension begins_with_alpha lenient_validate_type
       prefixed_extension (PyStr "2.1") empty_registry
     = (Ok tt, registered Extensions "2.1" prefixed_extension empty_registry).
Proof.
  split; [reflexivity|]. split; [reflexivity|].
  apply (extension_prefix_alone_suffices begins_with_alpha
           lenient_validate_type prefixed_extension empty_registry
           empty_catalog ∅); reflexivity.
Defined.

Example extension_naming_examples :
  _register_extension begins_with_alpha lenient_validate_type
    (mkPyType "Foo" "foo-ext" [("rank", plain_property)] None false)
    (PyStr "2.1") empty_registry
  = (Ok tt,
     registered Extensions "2.1"
       (mkPyType "Foo" "foo-ext" [("rank", plain_property)] None false)
       empty_registry)
  /\ _register_extension begins_with_alpha lenient_validate_type
       (mkPyType "Foo" "foo-bar" [("rank", plain_property)] None false)
       (PyStr "2.1") empty_registry
     = (Raise (ValueError (InvalidExtensionTypeName "foo-bar")),
        empty_registry)
  /\ _register_extension begins_with_alpha lenient_validate_type
       (mkPyType "Foo" "foo-bar" [("rank", plain_property)] None false)
       (PyStr "2.0") empty_registry
     = (Ok tt,
        registered Extensions "2.0"
          (mkPyType "Foo" "foo-bar" [("rank", plain_property)] None false)
          empty_registry).
Proof.
  split; [|split].
  - apply (register_ok _ _ Extensions _ "2.1" empty_registry empty_catalog ∅);
      reflexivity.
  - apply (register_gate_raise _ _ Extensions). reflexivity.
  - apply (register_ok _ _ Extensions _ "2.0" empty_registry empty_catalog ∅);
      reflexivity.
Qed.

(** C3. After a registration has succeeded, registering the same type again
    in the same namespace and version raises [DuplicateRegistrationError]
    and leaves the registry as it is; so does every type with the same
    identifier that would have been accepted before, and no type with that
    identifier gets in any more.  What a registration under another version
    (or in another namespace) answers is not changed, so an identifier that
    could be registered there still can.  The successful call added exactly
    one entry, under an identifier that was free, and touched no other. *)
Theorem duplicate_identifier_rejected
    (matches : string -> bool) (validate_type : string -> pyvalue -> outcome unit)
    (k : Kind) (t : PyType) (version : pyvalue) (reg reg1 : Registry) :
  register matches validate_type k t version reg = (Ok tt, reg1) ->
  register matches validate_type k t version reg1
  = (Raise (DuplicateRegistrationError (category k) (_type t)), reg1)
  /\ (forall (t' : PyType) (reg' : Registry),
        _type t' = _type t ->
        register matches validate_type k t' version reg = (Ok tt, reg') ->
        register matches validate_type k t' version reg1
        = (Raise (DuplicateRegistrationError (category k) (_type t)), reg1))
  /\ (forall t' : PyType,
        _type t' = _type t ->
        fst (register matches validate_type k t' version reg1) <> Ok tt
        /\ snd (register matches validate_type k t' version reg1) = reg1)
  /\ (forall (k' : Kind) (version' : pyvalue) (t' : PyType),
        (k', version') <> (k, version) ->
        fst (register matches validate_type k' t' version' reg1)
        = fst (register matches validate_type k' t' version' reg))
  /\ exists v : string,
       version = PyStr v
       /\ lookup_type k v (_type t) reg = None
       /\ lookup_type k v (_type t) reg1 = Some t
       /\ (forall (k' : Kind) (v' name : string),
             (k', v', name) <> (k, v, _type t) ->
             lookup_type k' v' name reg1 = lookup_type k' v' name reg).
Proof.
  intros Hok.
  destruct (register_ok_inv _ _ _ _ _ _ _ Hok)
    as [Hgate (v & catalog & types & -> & Hv & Hk & Hfree & ->)].
  assert (Hagain : forall t' : PyType,
            _type t' = _type t ->
            gate matches validate_type k t' (PyStr v) = Ok (PyStr v) ->
            register matches validate_type k t' (PyStr v)
              (registered k v t reg)
            = (Raise (DuplicateRegistrationError (category k) (_type t)),
               registered k v t reg)).
  { intros t' Hid Hg. rewrite register_phases, Hg.
    apply (store_registered_again _ _ _ _ _ _ _ Hv Hk Hid). }
  split; [apply Hagain; [reflexivity | exact Hgate]|].
  split.
  { intros t' reg' Hid Hok'. apply Hagain; [exact Hid|].
    apply (register_ok_inv _ _ _ _ _ _ _ Hok'). }
  split.
  { intros t' Hid. rewrite register_phases.
    destruct (gate matches validate_type k t' (PyStr v)) as [v0|e] eqn:Hg.
    - apply gate_version in Hg. subst v0.
      rewrite (store_registered_again _ _ _ _ _ _ _ Hv Hk Hid).
      split; [discriminate | reflexivity].
    - split; [discriminate | reflexivity]. }
  split.
  { intros k' version' t' Hne. rewrite !register_phases.
    destruct (gate matches validate_type k' t' version') as [v0|e] eqn:Hg;
      [|reflexivity].
    apply gate_version in Hg. subst v0.
    apply store_elsewhere. exact Hne. }
  exists v. split; [reflexivity|]. split.
  { rewrite (lookup_type_of_namespace _ _ _ _ _ _ Hv Hk). exact Hfree. }
  split.
  { apply (lookup_type_registered _ _ _ _ _ _ Hv Hk). }
  intros k' v' name Hne. apply lookup_type_registered_other. exact Hne.
Qed.

Lemma duplicate_identifier_rejected_witness :
  register begins_with_alpha lenient_validate_type DomainObjects widget
    (PyStr "2.1") empty_registry
  = (Ok tt, registered DomainObjects "2.1" widget empty_registry)
  /\ register begins_with_alpha lenient_validate_type DomainObjects widget
       (PyStr "2.1") (registered DomainObjects "2.1" widget empty_registry)
     = (Raise (DuplicateRegistrationError "STIX Object" "x-widget"),
        registered DomainObjects "2.1" widget empty_registry).
Proof.
  assert (H : register begins_with_alpha lenient_validate_type DomainObjects
                widget (PyStr "2.1") empty_registry
              = (Ok tt, registered DomainObjects "2.1" widget empty_registry))
    by (apply (register_ok _ _ DomainObjects widget "2.1" empty_registry
                 empty_catalog ∅); reflexivity).
  split; [exact H|].
  exact (proj1 (duplicate_identifier_rejected _ _ _ _ _ _ _ H)).
Defined.

(** The same identifier, once per version. *)
Example same_identifier_in_two_versions :
  exists reg1 reg2 : Registry,
    register begins_with_alpha lenient_validate_type DomainObjects widget
      (PyStr "2.1") empty_registry = (Ok tt, reg1)
    /\ register begins_with_alpha lenient_validate_type DomainObjects widget
         (PyStr "2.0") reg1 = (Ok tt, reg2)
    /\ lookup_type DomainObjects "2.0" "x-widget" reg2 = Some widget
    /\ lookup_type DomainObjects "2.1" "x-widget" reg2 = Some widget.
Proof.
  exists (registered DomainObjects "2.1" widget empty_registry),
         (registered DomainObjects "2.0" widget
            (registered DomainObjects "2.1" widget empty_registry)).
  split.
  { apply (register_ok _ _ DomainObjects widget "2.1" empty_registry
             empty_catalog ∅); reflexivity. }
  split.
  { apply (register_ok _ _ DomainObjects widget "2.0" _ empty_catalog ∅);
      reflexivity. }
  split.
  { apply (lookup_type_registered DomainObjects "2.0" widget _
             empty_catalog ∅); reflexivity. }
  rewrite (lookup_type_registered_other DomainObjects DomainObjects
             "2.0" "2.1" "x-widget" widget) by discriminate.
  apply (lookup_type_registered DomainObjects "2.1" widget _
           empty_catalog ∅); reflexivity.
Qed.

(** C4. A registration that raises, for whatever reason, leaves the
    registry exactly as it found it. *)
Theorem failed_registration_changes_nothing
    (matches : string -> bool) (validate_type : string -> pyvalue -> outcome unit)
    (k : Kind) (t : PyType) (version : pyvalue) (reg reg' : Registry)
    (e : Exception) :
  register matches validate_type k t version reg = (Raise e, reg') ->
  reg' = reg.
Proof.
  rewrite register_phases.
  destruct (gate matches validate_type k t version) as [v0|e0];
    [|congruence].
  rewrite store_run.
  destruct v0 as [|v]; [congruence|].
  destruct (reg !! v) as [catalog|]; [|congruence].
  destruct (catalog !! namespace_key k) as [types|]; [|congruence].
  destruct (types !! _type t); [congruence | discriminate].
Qed.

Lemma failed_registration_changes_nothing_witness :
  fst (register begins_with_alpha lenient_validate_type DomainObjects widget
         (PyStr "2.1") (registered DomainObjects "2.1" widget empty_registry))
  = Raise (DuplicateRegistrationError "STIX Object" "x-widget")
  /\ snd (register begins_with_alpha lenient_validate_type DomainObjects
            widget (PyStr "2.1")
            (registered DomainObjects "2.1" widget empty_registry))
     = registered DomainObjects "2.1" widget empty_registry.
Proof.
  assert (H : register begins_with_alpha lenient_validate_type DomainObjects
                widget (PyStr "2.1")
                (registered DomainObjects "2.1" widget empty_registry)
              = (Raise (DuplicateRegistrationError "STIX Object" "x-widget"),
                 registered DomainObjects "2.1" widget empty_registry)).
  { rewrite register_phases.
    change (gate begins_with_alpha lenient_validate_type DomainObjects widget
              (PyStr "2.1")) with (@Ok pyvalue (PyStr "2.1")).
    apply (store_registered_again DomainObjects "2.1" widget widget
             empty_registry empty_catalog ∅); reflexivity. }
  split; [rewrite H; reflexivity|].
  apply (failed_registration_changes_nothing begins_with_alpha
           lenient_validate_type DomainObjects widget (PyStr "2.1")
           (registered DomainObjects "2.1" widget empty_registry) _
           (DuplicateRegistrationError "STIX Object" "x-widget")).
  rewrite H. reflexivity.
Defined.

(** C9. A type without the declaration marker is refused with the
    declaration error whatever its properties and whatever the version: the
    check comes before the version is resolved and before any property is
    looked at. *)
Theorem declaration_check_comes_first
    (matches : string -> bool) (t : PyType) (version : pyvalue)
    (reg : Registry) :
  is_DomainObject t = false ->
  _register_object matches t version reg
  = (Raise (ValueError (NotCustomObject (__name__ t))), reg).
Proof.
  intros H. unfold _register_object, bind, when, raise. rewrite H.
  reflexivity.
Qed.

Lemma declaration_check_comes_first_witness :
  is_DomainObject undeclared_widget = false
  /\ _validate_props begins_with_alpha (_properties undeclared_widget)
       (PyStr "2.1")
     = Raise (ValueError (PropertyNameNotAlpha "1bad"))
  /\ _register_object begins_with_alpha undeclared_widget (PyStr "2.1")
       empty_registry
     = (Raise (ValueError (NotCustomObject "Widget")), empty_registry).
Proof.
  split; [reflexivity|]. split; [reflexivity|].
  apply (declaration_check_comes_first begins_with_alpha undeclared_widget
           (PyStr "2.1") empty_registry).
  reflexivity.
Defined.

(** ** The merged property set of an extension *)

Lemma dict_get_in {V} (k : string) (v : V) (d : Dict.t V) :
  Dict.get k d = Some v -> In (k, v) d.
Proof.
  induction d as [|[k0 v0] r IH]; simpl; [discriminate|].
  destruct (String.eqb k0 k) eqn:E.
  - apply String.eqb_eq in E. subst k0. intros H. injection H as ->.
    left. reflexivity.
  - intros H. right. apply IH. exact H.
Qed.

(** An extension whose merged property set does not validate is refused. *)
Lemma extension_gate_validates_merged
    (matches : string -> bool) (validate_type : string -> pyvalue -> outcome unit)
    (t : PyType) (version : pyvalue) :
  raised (_validate_props matches (combined_props_of t) version) = true ->
  raised (gate matches validate_type Extensions t version) = true.
Proof.
  intros H. cbn [gate]. unfold seq_checks, guard.
  destruct (validate_type (_type t) version); [|reflexivity].
  destruct (py_eq_str version "2.1"
            && negb (Str.endswith (_type t) "-ext"
                     || Str.startswith (_type t) "extension-definition--"));
    [reflexivity|].
  destruct (Dict.is_empty (combined_props_of t)); [reflexivity|].
  destruct (_validate_props matches (combined_props_of t) version);
    [discriminate | reflexivity].
Qed.

(** C10. When a key is in both property sets of an extension, the merged
    set holds the value of the top-level set for it; the merged set is then
    not empty, and it is this value that is validated: if it breaks the
    reference rule for the key, the extension is not registered. *)
Theorem toplevel_value_wins_in_merge
    (matches : string -> bool) (validate_type : string -> pyvalue -> outcome unit)
    (new_extension : PyType) (toplevel : Dict.t Property)
    (key : string) (own_value toplevel_value : Property) :
  _toplevel_properties new_extension = Some toplevel ->
  List.NoDup (Dict.keys toplevel) ->
  Dict.get key (_properties new_extension) = Some own_value ->
  Dict.get key toplevel = Some toplevel_value ->
  Dict.get key (combined_props_of new_extension) = Some toplevel_value
  /\ Dict.is_empty (combined_props_of new_extension) = false
  /\ (forall (version : pyvalue) (reg : Registry),
        check_ref_prop (ref_prop_types_of version) key toplevel_value
        <> Ok tt ->
        fst (_register_extension matches validate_type new_extension
               version reg) <> Ok tt).
Proof.
  intros Htop Hnd _ Hget.
  assert (Hmerged : Dict.get key (combined_props_of new_extension)
                    = Some toplevel_value).
  { unfold combined_props_of, Dict.merge. rewrite Htop. cbn [from_option id].
    apply dict_get_update; assumption. }
  split; [exact Hmerged|]. split.
  { destruct (combined_props_of new_extension); [discriminate | reflexivity]. }
  intros version reg Hbad.
  change (_register_extension matches validate_type new_extension version reg)
    with (register matches validate_type Extensions new_extension version reg).
  rewrite register_phases.
  assert (Hr : raised (gate matches validate_type Extensions new_extension
                         version) = true).
  { apply extension_gate_validates_merged, validate_props_raised.
    apply (for_items_raised _ _ key toplevel_value).
    - apply dict_get_in. exact Hmerged.
    - destruct (check_ref_prop (ref_prop_types_of version) key
                  toplevel_value) as [[]|e]; [contradiction | reflexivity]. }
  destruct (gate matches validate_type Extensions new_extension version);
    [discriminate|]. discriminate.
Qed.

Lemma toplevel_value_wins_in_merge_witness :
  _toplevel_properties overriding_extension
  = Some [("target_ref", plain_property)]
  /\ Dict.get "target_ref" (_properties overriding_extension)
     = Some reference_property
  /\ Dict.get "target_ref" (combined_props_of overriding_extension)
     = Some plain_property.
Proof.
  split; [reflexivity|]. split; [reflexivity|].
  refine (proj1 (toplevel_value_wins_in_merge begins_with_alpha
                   lenient_validate_type overriding_extension
                   [("target_ref", plain_property)] "target_ref"
                   reference_property plain_property eq_refl _ eq_refl
                   eq_refl)).
  apply List.NoDup_cons; [simpl; tauto | apply List.NoDup_nil].
Defined.

(** The own value alone would have been accepted. *)
Example overriding_extension_refused :
  _register_extension begins_with_alpha lenient_validate_type
    overriding_extension (PyStr "2.1") empty_registry
  = (Raise (ValueError
              (NotReferenceProperty "target_ref" [ReferenceProperty])),
     empty_registry)
  /\ _validate_props begins_with_alpha (_properties overriding_extension)
       (PyStr "2.1") = Ok tt.
Proof.
  split; [|reflexivity].
  apply (register_gate_raise _ _ Extensions). reflexivity.
Qed.

(** * Further properties of the module *)

(** ** The tail of a property name *)

Lemma rfind_split_none (sep : ascii) (s : string) :
  Str.rfind_split sep s = None <-> contains_char sep s = false.
Proof.
  induction s as [|c r IH]; simpl; [tauto|].
  destruct (Str.rfind_split sep r) as [[h t]|].
  - split; [discriminate|]. intros H. apply orb_false_elim in H as [_ H].
    apply IH in H. discriminate.
  - destruct (Ascii.eqb c sep); simpl; [split; discriminate|].
    split; intros _; [apply IH|]; reflexivity.
Qed.

Lemma rfind_split_some (sep : ascii) (s h t : string) :
  Str.rfind_split sep s = Some (h, t) ->
  s = String.append h (String sep t) /\ contains_char sep t = false.
Proof.
  revert h. induction s as [|c r IH]; simpl; intros h; [discriminate|].
  destruct (Str.rfind_split sep r) as [[h' t']|] eqn:Hr.
  - intros H. injection H as <- <-.
    destruct (IH h' eq_refl) as [-> Ht]. split; [reflexivity | exact Ht].
  - destruct (Ascii.eqb c sep) eqn:E; [|discriminate].
    intros H. injection H as <- <-. apply Ascii.eqb_eq in E. subst c.
    split; [reflexivity|]. apply rfind_split_none. exact Hr.
Qed.

Lemma rfind_split_app (sep : ascii) (h t : string) :
  contains_char sep t = false ->
  Str.rfind_split sep (String.append h (String sep t)) = Some (h, t).
Proof.
  intros Ht. induction h as [|c r IH]; simpl.
  - apply rfind_split_none in Ht. rewrite Ht, Ascii.eqb_refl. reflexivity.
  - rewrite IH. reflexivity.
Qed.

Lemma tail_of_no_separator (name : string) :
  contains_char "_" name = false -> tail_of name = name.
Proof.
  intros H. apply rfind_split_none in H.
  unfold tail_of, Str.rsplit1. rewrite H. reflexivity.
Qed.

Lemma tail_of_app (h t : string) :
  contains_char "_" t = false ->
  tail_of (String.append h (String "_" t)) = t.
Proof.
  intros H. unfold tail_of, Str.rsplit1.
  rewrite (rfind_split_app _ h t H). reflexivity.
Qed.

(** X1. [rsplit("_", 1)[-1]] is the text after the last underscore: it holds
    no underscore, it is the whole name when the name has none, and it is
    [t] for every name [h + "_" + t] with no underscore in [t]. *)
Theorem tail_is_text_after_last_underscore (name : string) :
  contains_char "_" (tail_of name) = false
  /\ (contains_char "_" name = false -> tail_of name = name)
  /\ (forall h t : string,
        contains_char "_" t = false ->
        name = String.append h (String "_" t) -> tail_of name = t).
Proof.
  split; [|split].
  - unfold tail_of, Str.rsplit1.
    destruct (Str.rfind_split "_" name) as [[h t]|] eqn:H.
    + apply rfind_split_some in H as [_ H]. exact H.
    + apply rfind_split_none in H. exact H.
  - apply tail_of_no_separator.
  - intros h t Ht ->. apply tail_of_app. exact Ht.
Qed.

Lemma tail_is_text_after_last_underscore_witness :
  contains_char "_" "ref" = false
  /\ tail_of "created_by_ref" = "ref".
Proof.
  split; [reflexivity|].
  apply (proj2 (proj2 (tail_is_text_after_last_underscore "created_by_ref"))
           "created_by" "ref"); reflexivity.
Defined.

Lemma tail_of_eq_iff (name suffix : string) :
  contains_char "_" suffix = false ->
  tail_of name = suffix <->
  name = suffix \/ exists h : string, name = String.append h (String "_" suffix).
Proof.
  intros Hs. split.
  - unfold tail_of, Str.rsplit1.
    destruct (Str.rfind_split "_" name) as [[h t]|] eqn:H.
    + apply rfind_split_some in H as [-> _]. cbn. intros ->.
      right. exists h. reflexivity.
    + cbn. intros ->. left. reflexivity.
  - intros [-> | [h ->]].
    + apply tail_of_no_separator. exact Hs.
    + apply tail_of_app. exact Hs.
Qed.

(** X2. The names that the loop holds to the reference rule: the tail is
    "ref" exactly for the name "ref" itself and the names that end in
    "_ref", and "refs" exactly for "refs" and the names that end in
    "_refs". *)
Theorem names_held_to_reference_rule (name : string) :
  (tail_of name = "ref" <->
   name = "ref" \/ exists h : string, name = String.append h "_ref")
  /\ (tail_of name = "refs" <->
      name = "refs" \/ exists h : string, name = String.append h "_refs").
Proof.
  split; apply tail_of_eq_iff; reflexivity.
Qed.

(** ** When validation passes, and how it fails *)

Lemma check_ref_prop_ok_iff (types : list RefClass) (name : string) (p : Property) :
  check_ref_prop types name p = Ok tt <->
  (tail_of name = "ref" -> isinstance p types = true)
  /\ (tail_of name = "refs" ->
      is_ListProperty p = true /\ isinstance_opt (contained p) types = true).
Proof.
  destruct (String.eqb (tail_of name) "ref") eqn:E1.
  - apply String.eqb_eq in E1. rewrite check_ref_prop_ref by exact E1.
    rewrite E1. destruct (isinstance p types); split.
    + intros _. split; [reflexivity | discriminate].
    + reflexivity.
    + discriminate.
    + intros [H _]. specialize (H eq_refl). discriminate.
  - apply String.eqb_neq in E1.
    destruct (String.eqb (tail_of name) "refs") eqn:E2.
    + apply String.eqb_eq in E2. rewrite check_ref_prop_refs by exact E2.
      destruct (is_ListProperty p && isinstance_opt (contained p) types)
        eqn:Hc; split.
      * intros _. split; [contradiction|].
        intros _. apply andb_true_iff. exact Hc.
      * reflexivity.
      * discriminate.
      * intros [_ H]. apply H, andb_true_iff in E2. congruence.
    + apply String.eqb_neq in E2.
      rewrite check_ref_prop_other by assumption.
      split; [|reflexivity]. intros _. split; contradiction.
Qed.

Lemma check_prop_name_ok_iff (matches : string -> bool) (name : string)
    (p : Property) :
  check_prop_name matches name p = Ok tt <-> matches name = true.
Proof.
  unfold check_prop_name. destruct (matches name); simpl;
    split; congruence.
Qed.

Lemma for_items_raise_inv {V} (body : string -> V -> outcome unit)
    (d : Dict.t V) (e : Exception) :
  for_items body d = Raise e ->
  exists (k : string) (v : V), In (k, v) d /\ body k v = Raise e.
Proof.
  induction d as [|[k v] r IH]; simpl; [discriminate|].
  destruct (body k v) as [u|e'] eqn:Hb.
  - intros H. destruct (IH H) as (k' & v' & Hin & Hb').
    exists k', v'. auto.
  - intros H. injection H as ->. exists k, v. auto.
Qed.

Lemma validate_ref_props_ok_iff (d : Dict.t Property) (version : pyvalue) :
  _validate_ref_props d version = Ok tt <->
  (forall (name : string) (p : Property),
      In (name, p) d ->
      (tail_of name = "ref" ->
       isinstance p (ref_prop_types_of version) = true)
      /\ (tail_of name = "refs" ->
          is_ListProperty p = true
          /\ isinstance_opt (contained p) (ref_prop_types_of version) = true)).
Proof.
  unfold _validate_ref_props. rewrite for_items_ok.
  split; intros H name p Hin; apply check_ref_prop_ok_iff, H, Hin.
Qed.

Lemma validate_props_ok_iff
    (matches : string -> bool) (d : Dict.t Property) (version : pyvalue) :
  _validate_props matches d version = Ok tt <->
  (version <> PyStr "2.0" ->
   forall name : string, In name (Dict.keys d) -> matches name = true)
  /\ _validate_ref_props d version = Ok tt.
Proof.
  unfold _validate_props.
  destruct (py_eq_str version "2.0") eqn:E; cbn [negb].
  - apply py_eq_str_true in E. split.
    + intros H. split; [contradiction | exact H].
    + intros [_ H]. exact H.
  - apply py_eq_str_false in E.
    destruct (for_items (check_prop_name matches) d) as [[]|e] eqn:Hn.
    + split.
      * intros H. split; [|exact H]. intros _ name Hin.
        apply in_map_iff in Hin as [[k p] [<- Hin]].
        apply (check_prop_name_ok_iff matches k p).
        apply (proj1 (for_items_ok _ _) Hn). exact Hin.
      * intros [_ H]. exact H.
    + split; [discriminate|]. intros [H _].
      assert (Hok : for_items (check_prop_name matches) d = Ok tt).
      { apply for_items_ok. intros k p Hin. apply check_prop_name_ok_iff.
        apply (H E). apply in_map_iff. exists (k, p). auto. }
      congruence.
Qed.

(** X3. The reference rule passes exactly when every property whose tail is
    "ref" is an instance of one of the version's reference classes and every
    property whose tail is "refs" is a list property whose contained
    property is one. *)
Theorem reference_rule_passes_iff (props_map : Dict.t Property)
    (version : pyvalue) :
  _validate_ref_props props_map version = Ok tt <->
  (forall (name : string) (p : Property),
      In (name, p) props_map ->
      (tail_of name = "ref" ->
       isinstance p (ref_prop_types_of version) = true)
      /\ (tail_of name = "refs" ->
          is_ListProperty p = true
          /\ isinstance_opt (contained p) (ref_prop_types_of version) = true)).
Proof. apply validate_ref_props_ok_iff. Qed.

(** X4. A property set is conformant exactly when, unless the version is
    "2.0", every name matches the pattern, and the set passes the reference
    rule. *)
Theorem validation_passes_iff
    (matches : string -> bool) (props_map : Dict.t Property)
    (version : pyvalue) :
  _validate_props matches props_map version = Ok tt <->
  (version <> PyStr "2.0" ->
   forall name : string, In name (Dict.keys props_map) -> matches name = true)
  /\ (forall (name : string) (p : Property),
        In (name, p) props_map ->
        (tail_of name = "ref" ->
         isinstance p (ref_prop_types_of version) = true)
        /\ (tail_of name = "refs" ->
            is_ListProperty p = true
            /\ isinstance_opt (contained p) (ref_prop_types_of version)
               = true)).
Proof.
  rewrite validate_props_ok_iff, validate_ref_props_ok_iff. reflexivity.
Qed.

(** X5. Whether a property set is conformant does not depend on the order of
    its items (the order only decides which error is reported). *)
Theorem validation_verdict_ignores_order
    (matches : string -> bool) (d d' : Dict.t Property) (version : pyvalue) :
  Permutation d d' ->
  (_validate_props matches d version = Ok tt <->
   _validate_props matches d' version = Ok tt).
Proof.
  assert (Hone : forall a b : Dict.t Property,
            Permutation a b ->
            _validate_props matches a version = Ok tt ->
            _validate_props matches b version = Ok tt).
  { intros a b Hp. rewrite !validate_props_ok_iff, !validate_ref_props_ok_iff.
    intros [Hn Hr]. split.
    - intros Hv name Hin. apply (Hn Hv).
      apply in_map_iff in Hin as [kp [<- Hin]]. apply in_map.
      apply (Permutation_in _ (Permutation_sym Hp) Hin).
    - intros name p Hin. apply Hr.
      apply (Permutation_in _ (Permutation_sym Hp) Hin). }
  intros Hp. split; apply Hone; [exact Hp | apply Permutation_sym, Hp].
Qed.

Lemma validation_verdict_ignores_order_witness :
  Permutation [("1bad", plain_property); ("owner_ref", plain_property)]
              [("owner_ref", plain_property); ("1bad", plain_property)]
  /\ _validate_props begins_with_alpha
       [("1bad", plain_property); ("owner_ref", plain_property)] (PyStr "2.1")
     = Raise (ValueError (PropertyNameNotAlpha "1bad"))
  /\ _validate_props begins_with_alpha
       [("owner_ref", plain_property); ("1bad", plain_property)] (PyStr "2.0")
     = Raise (ValueError (NotReferenceProperty "owner_ref"
                            [ObjectReferenceProperty; ReferenceProperty]))
  /\ (_validate_props begins_with_alpha
        [("1bad", plain_property); ("owner_ref", plain_property)]
        (PyStr "2.0") = Ok tt <->
      _validate_props begins_with_alpha
        [("owner_ref", plain_property); ("1bad", plain_property)]
        (PyStr "2.0") = Ok tt).
Proof.
  assert (Hp : Permutation
                 [("1bad", plain_property); ("owner_ref", plain_property)]
                 [("owner_ref", plain_property); ("1bad", plain_property)])
    by apply perm_swap.
  split; [exact Hp|]. split; [reflexivity|]. split; [reflexivity|].
  exact (validation_verdict_ignores_order begins_with_alpha _ _
           (PyStr "2.0") Hp).
Defined.

Lemma ref_prop_types_cases (version : pyvalue) :
  ref_prop_types_of version = [ObjectReferenceProperty; ReferenceProperty]
  \/ ref_prop_types_of version = [ReferenceProperty].
Proof.
  destruct version as [|s]; [right; reflexivity|].
  unfold ref_prop_types_of, _VERSION_REF_TYPES_MAP. cbn [Dict.get].
  destruct (String.eqb "2.0" s); [left; reflexivity|].
  destruct (String.eqb "2.1" s); right; reflexivity.
Qed.

(** The classes of "2.1" are accepted under every version, and the classes
    of every version are accepted under "2.0". *)
Lemma isinstance_across_versions (p : Property) (version : pyvalue) :
  (isinstance p (ref_prop_types_of (PyStr "2.1")) = true ->
   isinstance p (ref_prop_types_of version) = true)
  /\ (isinstance p (ref_prop_types_of version) = true ->
      isinstance p (ref_prop_types_of (PyStr "2.0")) = true).
Proof.
  rewrite ref_prop_types_20, ref_prop_types_21.
  destruct (ref_prop_types_cases version) as [-> | ->];
    unfold isinstance; simpl; rewrite !orb_false_r;
    split; try tauto; intros ->; auto using orb_true_r.
Qed.

Lemma isinstance_opt_across_versions (o : option Property) (version : pyvalue) :
  (isinstance_opt o (ref_prop_types_of (PyStr "2.1")) = true ->
   isinstance_opt o (ref_prop_types_of version) = true)
  /\ (isinstance_opt o (ref_prop_types_of version) = true ->
      isinstance_opt o (ref_prop_types_of (PyStr "2.0")) = true).
Proof.
  destruct o as [p|]; simpl; [apply isinstance_across_versions | tauto].
Qed.

(** X6. "2.0" is the most lenient version and "2.1" the strictest: a
    property set that is conformant under some version is conformant under
    "2.0", and one that is conformant under "2.1" is conformant under every
    version. *)
Theorem conformance_across_versions
    (matches : string -> bool) (props_map : Dict.t Property)
    (version : pyvalue) :
  (_validate_props matches props_map version = Ok tt ->
   _validate_props matches props_map (PyStr "2.0") = Ok tt)
  /\ (_validate_props matches props_map (PyStr "2.1") = Ok tt ->
      _validate_props matches props_map version = Ok tt).
Proof.
  rewrite !validate_props_ok_iff, !validate_ref_props_ok_iff. split.
  - intros [_ Hr]. split; [congruence|].
    intros name p Hin. destruct (Hr name p Hin) as [H1 H2]. split.
    + intros Ht. apply (isinstance_across_versions p version), H1, Ht.
    + intros Ht. destruct (H2 Ht) as [Hl Hc]. split; [exact Hl|].
      apply (isinstance_opt_across_versions _ version), Hc.
  - intros [Hn Hr]. split.
    + intros _. apply Hn. discriminate.
    + intros name p Hin. destruct (Hr name p Hin) as [H1 H2]. split.
      * intros Ht. apply (isinstance_across_versions p version), H1, Ht.
      * intros Ht. destruct (H2 Ht) as [Hl Hc]. split; [exact Hl|].
        apply (isinstance_opt_across_versions _ version), Hc.
Qed.

Lemma conformance_across_versions_witness :
  _validate_props begins_with_alpha (_properties widget) (PyStr "2.1") = Ok tt
  /\ _validate_props begins_with_alpha (_properties widget) (PyStr "3.0")
     = Ok tt.
Proof.
  assert (H : _validate_props begins_with_alpha (_properties widget)
                (PyStr "2.1") = Ok tt) by reflexivity.
  split; [exact H|].
  exact (proj2 (conformance_across_versions begins_with_alpha
                  (_properties widget) (PyStr "3.0")) H).
Defined.

(** How validation fails. *)
Lemma validate_props_raise_inv
    (matches : string -> bool) (props_map : Dict.t Property)
    (version : pyvalue) (e : Exception) :
  _validate_props matches props_map version = Raise e ->
  exists (name : string) (p : Property),
    In (name, p) props_map
    /\ ((e = ValueError (PropertyNameNotAlpha name)
         /\ version <> PyStr "2.0" /\ matches name = false)
        \/ (e = ValueError
                  (NotReferenceProperty name (ref_prop_types_of version))
            /\ tail_of name = "ref"
            /\ isinstance p (ref_prop_types_of version) = false)
        \/ (e = ValueError
                  (NotReferenceListProperty name (ref_prop_types_of version))
            /\ tail_of name = "refs"
            /\ is_ListProperty p
               && isinstance_opt (contained p) (ref_prop_types_of version)
               = false)).
Proof.
  unfold _validate_props.
  assert (Href : _validate_ref_props props_map version = Raise e ->
                 exists (name : string) (p : Property),
                   In (name, p) props_map
                   /\ ((e = ValueError (PropertyNameNotAlpha name)
                        /\ version <> PyStr "2.0" /\ matches name = false)
                       \/ (e = ValueError
                                 (NotReferenceProperty name
                                    (ref_prop_types_of version))
                           /\ tail_of name = "ref"
                           /\ isinstance p (ref_prop_types_of version) = false)
                       \/ (e = ValueError
                                 (NotReferenceListProperty name
                                    (ref_prop_types_of version))
                           /\ tail_of name = "refs"
                           /\ is_ListProperty p
                              && isinstance_opt (contained p)
                                   (ref_prop_types_of version)
                              = false))).
  { intros H. apply for_items_raise_inv in H as (name & p & Hin & Hb).
    exists name, p. split; [exact Hin|]. right.
    destruct (String.eqb (tail_of name) "ref") eqn:E1.
    - apply String.eqb_eq in E1. rewrite check_ref_prop_ref in Hb by exact E1.
      destruct (isinstance p (ref_prop_types_of version)); [discriminate|].
      injection Hb as <-. left. auto.
    - apply String.eqb_neq in E1.
      destruct (String.eqb (tail_of name) "refs") eqn:E2.
      + apply String.eqb_eq in E2.
        rewrite check_ref_prop_refs in Hb by exact E2.
        destruct (is_ListProperty p
                  && isinstance_opt (contained p) (ref_prop_types_of version));
          [discriminate|].
        injection Hb as <-. right. auto.
      + apply String.eqb_neq in E2.
        rewrite check_ref_prop_other in Hb by assumption. discriminate. }
  destruct (py_eq_str version "2.0") eqn:E; cbn [negb]; [exact Href|].
  apply py_eq_str_false in E.
  destruct (for_items (check_prop_name matches) props_map) as [u|e'] eqn:Hn;
    [exact Href|].
  intros H. injection H as ->.
  apply for_items_raise_inv in Hn as (name & p & Hin & Hb).
  exists name, p. split; [exact Hin|]. left.
  unfold check_prop_name in Hb.
  destruct (matches name); [discriminate|]. injection Hb as <-. auto.
Qed.

(** X7. Validation raises nothing but the three [ValueError]s of the module,
    and the error names a property of the set that breaks the rule it
    states. *)
Theorem validation_error_names_offending_property
    (matches : string -> bool) (props_map : Dict.t Property)
    (version : pyvalue) (e : Exception) :
  _validate_props matches props_map version = Raise e ->
  exists (name : string) (p : Property),
    In (name, p) props_map
    /\ ((e = ValueError (PropertyNameNotAlpha name)
         /\ version <> PyStr "2.0" /\ matches name = false)
        \/ (e = ValueError
                  (NotReferenceProperty name (ref_prop_types_of version))
            /\ tail_of name = "ref"
            /\ isinstance p (ref_prop_types_of version) = false)
        \/ (e = ValueError
                  (NotReferenceListProperty name (ref_prop_types_of version))
            /\ tail_of name = "refs"
            /\ is_ListProperty p
               && isinstance_opt (contained p) (ref_prop_types_of version)
               = false)).
Proof. apply validate_props_raise_inv. Qed.

Lemma validation_error_names_offending_property_witness :
  exists (name : string) (p : Property),
    In (name, p) (_properties undeclared_widget)
    /\ ((ValueError (PropertyNameNotAlpha "1bad")
         = ValueError (PropertyNameNotAlpha name)
         /\ PyStr "2.1" <> PyStr "2.0" /\ begins_with_alpha name = false)
        \/ (ValueError (PropertyNameNotAlpha "1bad")
            = ValueError
                (NotReferenceProperty name (ref_prop_types_of (PyStr "2.1")))
            /\ tail_of name = "ref"
            /\ isinstance p (ref_prop_types_of (PyStr "2.1")) = false)
        \/ (ValueError (PropertyNameNotAlpha "1bad")
            = ValueError
                (NotReferenceListProperty name
                   (ref_prop_types_of (PyStr "2.1")))
            /\ tail_of name = "refs"
            /\ is_ListProperty p
               && isinstance_opt (contained p)
                    (ref_prop_types_of (PyStr "2.1"))
               = false)).
Proof.
  apply (validation_error_names_offending_property begins_with_alpha
           (_properties undeclared_widget) (PyStr "2.1")).
  reflexivity.
Defined.

(** ** When a registration succeeds *)

Lemma truthy_str (v : string) : truthy (PyStr v) = true <-> v <> "".
Proof.
  simpl. destruct (String.eqb v "") eqn:E; simpl.
  - apply String.eqb_eq in E. split; [discriminate | contradiction].
  - apply String.eqb_neq in E. tauto.
Qed.

Lemma register_ok_iff
    (matches : string -> bool) (validate_type : string -> pyvalue -> outcome unit)
    (k : Kind) (t : PyType) (version : pyvalue) (reg reg' : Registry) :
  register matches validate_type k t version reg = (Ok tt, reg') <->
  gate matches validate_type k t version = Ok version
  /\ exists (v : string) (catalog : Catalog) (types : Namespace),
       version = PyStr v
       /\ reg !! v = Some catalog
       /\ catalog !! namespace_key k = Some types
       /\ types !! _type t = None
       /\ reg' = registered k v t reg.
Proof.
  split; [apply register_ok_inv|].
  intros [Hg (v & catalog & types & -> & Hv & Hk & Hfree & ->)].
  apply (register_ok _ _ _ _ _ _ catalog types); assumption.
Qed.

Lemma gate_objects_ok_iff
    (matches : string -> bool) (validate_type : string -> pyvalue -> outcome unit)
    (t : PyType) (version : pyvalue) :
  gate matches validate_type DomainObjects t version = Ok version <->
  is_DomainObject t = true /\ truthy version = true
  /\ _validate_props matches (_properties t) version = Ok tt.
Proof.
  cbn [gate]. unfold guard, resolve_version.
  destruct (is_DomainObject t); cbn [negb].
  2:{ split; [discriminate | intros [H _]; discriminate]. }
  destruct (truthy version); cbn [negb].
  2:{ split; [discriminate | intros (_ & H & _); discriminate]. }
  destruct (_validate_props matches (_properties t) version) as [[]|e].
  - split; auto.
  - split; [discriminate | intros (_ & _ & H); discriminate].
Qed.

Lemma gate_markings_ok_iff
    (matches : string -> bool) (validate_type : string -> pyvalue -> outcome unit)
    (t : PyType) (version : pyvalue) :
  gate matches validate_type Markings t version = Ok version <->
  truthy version = true /\ validate_type (_type t) version = Ok tt
  /\ _validate_props matches (_properties t) version = Ok tt.
Proof.
  cbn [gate]. unfold seq_checks, resolve_version.
  destruct (truthy version); cbn [negb].
  2:{ split; [discriminate | intros (H & _); discriminate]. }
  destruct (validate_type (_type t) version) as [[]|e].
  2:{ split; [discriminate | intros (_ & H & _); discriminate]. }
  destruct (_validate_props matches (_properties t) version) as [[]|e].
  - split; auto.
  - split; [discriminate | intros (_ & _ & H); discriminate].
Qed.

Lemma gate_observables_ok_iff
    (matches : string -> bool) (validate_type : string -> pyvalue -> outcome unit)
    (t : PyType) (version : pyvalue) :
  gate matches validate_type Observables t version = Ok version <->
  truthy version = true
  /\ _validate_props matches (_properties t) version = Ok tt.
Proof.
  cbn [gate]. unfold resolve_version.
  destruct (truthy version); cbn [negb].
  2:{ split; [discriminate | intros (H & _); discriminate]. }
  destruct (_validate_props matches (_properties t) version) as [[]|e].
  - split; auto.
  - split; [discriminate | intros (_ & H); discriminate].
Qed.

Lemma gate_extensions_ok_iff
    (matches : string -> bool) (validate_type : string -> pyvalue -> outcome unit)
    (t : PyType) (version : pyvalue) :
  gate matches validate_type Extensions t version = Ok version <->
  validate_type (_type t) version = Ok tt
  /\ (version = PyStr "2.1" ->
      Str.endswith (_type t) "-ext"
      || Str.startswith (_type t) "extension-definition--" = true)
  /\ Dict.is_empty (combined_props_of t) = false
  /\ _validate_props matches (combined_props_of t) version = Ok tt.
Proof.
  cbn [gate]. unfold seq_checks, guard.
  destruct (validate_type (_type t) version) as [[]|e].
  2:{ split; [discriminate | intros (H & _); discriminate]. }
  destruct (py_eq_str version "2.1") eqn:Ev; cbn [andb].
  - apply py_eq_str_true in Ev.
    destruct (Str.endswith (_type t) "-ext"
              || Str.startswith (_type t) "extension-definition--");
      cbn [negb].
    2:{ split; [discriminate|]. intros (_ & H & _).
        specialize (H Ev). discriminate. }
    destruct (Dict.is_empty (combined_props_of t)).
    { split; [discriminate | intros (_ & _ & H & _); discriminate]. }
    destruct (_validate_props matches (combined_props_of t) version)
      as [[]|e].
    + split; auto.
    + split; [discriminate | intros (_ & _ & _ & H); discriminate].
  - apply py_eq_str_false in Ev.
    destruct (Dict.is_empty (combined_props_of t)).
    { split; [discriminate | intros (_ & _ & H & _); discriminate]. }
    destruct (_validate_props matches (combined_props_of t) version)
      as [[]|e].
    + split; [|reflexivity]. intros _.
      split; [reflexivity|]. split; [contradiction|]. auto.
    + split; [discriminate | intros (_ & _ & _ & H); discriminate].
Qed.

(** X8. A custom object is registered exactly when it carries the
    declaration marker, the version is a non-empty string, its property set
    is conformant for that version, the registry has an 'objects' catalog for
    the version and the identifier is not in it; the registry then gains this
    one entry. *)
Theorem object_registered_iff
    (matches : string -> bool) (new_type : PyType) (version : pyvalue)
    (reg reg' : Registry) :
  _register_object matches new_type version reg = (Ok tt, reg') <->
  is_DomainObject new_type = true
  /\ _validate_props matches (_properties new_type) version = Ok tt
  /\ exists (v : string) (catalog : Catalog) (types : Namespace),
       version = PyStr v /\ v <> ""
       /\ reg !! v = Some catalog
       /\ catalog !! "objects" = Some types
       /\ types !! _type new_type = None
       /\ reg' = registered DomainObjects v new_type reg.
Proof.
  change (_register_object matches new_type version reg)
    with (register matches lenient_validate_type DomainObjects new_type
            version reg).
  rewrite register_ok_iff, gate_objects_ok_iff. cbn [namespace_key]. split.
  - intros [(Hd & Ht & Hp) (v & c & ty & -> & H)].
    apply truthy_str in Ht. split; [exact Hd|]. split; [exact Hp|].
    exists v, c, ty. tauto.
  - intros (Hd & Hp & v & c & ty & -> & Hv & H).
    apply truthy_str in Hv. split; [tauto|]. exists v, c, ty. tauto.
Qed.

(** X9. A marking is registered exactly when the version is a non-empty
    string, the collaborator accepts the identifier for that version, the
    property set is conformant, the registry has a 'markings' catalog for the
    version and the identifier is not in it. *)
Theorem marking_registered_iff
    (matches : string -> bool) (validate_type : string -> pyvalue -> outcome unit)
    (new_marking : PyType) (version : pyvalue) (reg reg' : Registry) :
  _register_marking matches validate_type new_marking version reg
  = (Ok tt, reg') <->
  validate_type (_type new_marking) version = Ok tt
  /\ _validate_props matches (_properties new_marking) version = Ok tt
  /\ exists (v : string) (catalog : Catalog) (types : Namespace),
       version = PyStr v /\ v <> ""
       /\ reg !! v = Some catalog
       /\ catalog !! "markings" = Some types
       /\ types !! _type new_marking = None
       /\ reg' = registered Markings v new_marking reg.
Proof.
  change (_register_marking matches validate_type new_marking version reg)
    with (register matches validate_type Markings new_marking version reg).
  rewrite register_ok_iff, gate_markings_ok_iff. cbn [namespace_key]. split.
  - intros [(Ht & Hvt & Hp) (v & c & ty & -> & H)].
    apply truthy_str in Ht. split; [exact Hvt|]. split; [exact Hp|].
    exists v, c, ty. tauto.
  - intros (Hvt & Hp & v & c & ty & -> & Hv & H).
    apply truthy_str in Hv. split; [tauto|]. exists v, c, ty. tauto.
Qed.

(** X10. An observable is registered exactly when the version is a
    non-empty string, the property set is conformant, the registry has an
    'observables' catalog for the version and the identifier is not in it;
    neither the identifier's shape nor a declaration marker is asked for. *)
Theorem observable_registered_iff
    (matches : string -> bool) (new_observable : PyType) (version : pyvalue)
    (reg reg' : Registry) :
  _register_observable matches new_observable version reg = (Ok tt, reg') <->
  _validate_props matches (_properties new_observable) version = Ok tt
  /\ exists (v : string) (catalog : Catalog) (types : Namespace),
       version = PyStr v /\ v <> ""
       /\ reg !! v = Some catalog
       /\ catalog !! "observables" = Some types
       /\ types !! _type new_observable = None
       /\ reg' = registered Observables v new_observable reg.
Proof.
  change (_register_observable matches new_observable version reg)
    with (register matches lenient_validate_type Observables new_observable
            version reg).
  rewrite register_ok_iff, gate_observables_ok_iff. cbn [namespace_key]. split.
  - intros [(Ht & Hp) (v & c & ty & -> & H)].
    apply truthy_str in Ht. split; [exact Hp|].
    exists v, c, ty. tauto.
  - intros (Hp & v & c & ty & -> & Hv & H).
    apply truthy_str in Hv. split; [tauto|]. exists v, c, ty. tauto.
Qed.

(** X11. An extension is registered exactly when the collaborator accepts
    the identifier, the identifier ends in '-ext' or starts with
    'extension-definition--' if the version is "2.1", the merged property
    set is non-empty and conformant, the registry has an 'extensions' catalog
    for the version and the identifier is not in it.  What goes into the
    catalog is the extension as it was passed. *)
Theorem extension_registered_iff
    (matches : string -> bool) (validate_type : string -> pyvalue -> outcome unit)
    (new_extension : PyType) (version : pyvalue) (reg reg' : Registry) :
  _register_extension matches validate_type new_extension version reg
  = (Ok tt, reg') <->
  validate_type (_type new_extension) version = Ok tt
  /\ (version = PyStr "2.1" ->
      Str.endswith (_type new_extension) "-ext"
      || Str.startswith (_type new_extension) "extension-definition--" = true)
  /\ Dict.is_empty (combined_props_of new_extension) = false
  /\ _validate_props matches (combined_props_of new_extension) version = Ok tt
  /\ exists (v : string) (catalog : Catalog) (types : Namespace),
       version = PyStr v
       /\ reg !! v = Some catalog
       /\ catalog !! "extensions" = Some types
       /\ types !! _type new_extension = None
       /\ reg' = registered Extensions v new_extension reg.
Proof.
  change (_register_extension matches validate_type new_extension version reg)
    with (register matches validate_type Extensions new_extension version reg).
  rewrite register_ok_iff, gate_extensions_ok_iff. cbn [namespace_key].
  tauto.
Qed.

(** ** Which exception, and when *)

(** X12. The checks come before the registry is looked at: a registration
    that succeeds against one registry raises [KeyError] with the version
    against a registry that has no catalog for the version, and [KeyError]
    with the namespace key against a catalog without that namespace; the
    registry is left as it is. *)
Theorem missing_catalog_raises_key_error
    (matches : string -> bool) (validate_type : string -> pyvalue -> outcome unit)
    (k : Kind) (t : PyType) (v : string) (reg0 reg0' reg : Registry) :
  register matches validate_type k t (PyStr v) reg0 = (Ok tt, reg0') ->
  (reg !! v = None ->
   register matches validate_type k t (PyStr v) reg
   = (Raise (KeyError (PyStr v)), reg))
  /\ (forall catalog : Catalog,
        reg !! v = Some catalog -> catalog !! namespace_key k = None ->
        register matches validate_type k t (PyStr v) reg
        = (Raise (KeyError (PyStr (namespace_key k))), reg)).
Proof.
  intros H0. apply register_ok_inv in H0 as [Hg _].
  split.
  - intros Hv. rewrite register_phases, Hg, store_run, Hv. reflexivity.
  - intros catalog Hv Hk. rewrite register_phases, Hg, store_run, Hv, Hk.
    reflexivity.
Qed.

Lemma missing_catalog_raises_key_error_witness :
  register begins_with_alpha lenient_validate_type Observables sensor
    (PyStr "2.1") empty_registry
  = (Ok tt, registered Observables "2.1" sensor empty_registry)
  /\ register begins_with_alpha lenient_validate_type Observables sensor
       (PyStr "2.1") ∅
     = (Raise (KeyError (PyStr "2.1")), ∅).
Proof.
  assert (H : register begins_with_alpha lenient_validate_type Observables
                sensor (PyStr "2.1") empty_registry
              = (Ok tt, registered Observables "2.1" sensor empty_registry))
    by (apply (register_ok _ _ Observables sensor "2.1" empty_registry
                 empty_catalog ∅); reflexivity).
  split; [exact H|].
  apply (proj1 (missing_catalog_raises_key_error _ _ _ _ _ _ _ ∅ H)).
  reflexivity.
Defined.

(** X13. An exception other than [KeyError] and
    [DuplicateRegistrationError] comes from the checks, which do not read the
    registry: the same call raises it against every registry. *)
Theorem check_errors_do_not_depend_on_registry
    (matches : string -> bool) (validate_type : string -> pyvalue -> outcome unit)
    (k : Kind) (t : PyType) (version : pyvalue) (reg reg1 : Registry)
    (e : Exception) :
  register matches validate_type k t version reg = (Raise e, reg1) ->
  (forall key : pyvalue, e <> KeyError key) ->
  (forall c n : string, e <> DuplicateRegistrationError c n) ->
  forall reg2 : Registry,
    register matches validate_type k t version reg2 = (Raise e, reg2).
Proof.
  rewrite register_phases.
  destruct (gate matches validate_type k t version) as [v0|e0] eqn:Hg.
  - rewrite store_run. intros H Hk Hd. exfalso.
    destruct v0 as [|v]; [injection H as <- _; eapply Hk; reflexivity|].
    destruct (reg !! v) as [catalog|];
      [|injection H as <- _; eapply Hk; reflexivity].
    destruct (catalog !! namespace_key k) as [types|];
      [|injection H as <- _; eapply Hk; reflexivity].
    destruct (types !! _type t);
      [injection H as <- _; eapply Hd; reflexivity | discriminate].
  - intros H _ _ reg2. injection H as <- _.
    rewrite register_phases, Hg. reflexivity.
Qed.

Lemma check_errors_do_not_depend_on_registry_witness :
  register begins_with_alpha lenient_validate_type Observables
    undeclared_widget (PyStr "2.1") empty_registry
  = (Raise (ValueError (PropertyNameNotAlpha "1bad")), empty_registry)
  /\ register begins_with_alpha lenient_validate_type Observables
       undeclared_widget (PyStr "2.1") ∅
     = (Raise (ValueError (PropertyNameNotAlpha "1bad")), ∅).
Proof.
  assert (H : register begins_with_alpha lenient_validate_type Observables
                undeclared_widget (PyStr "2.1") empty_registry
              = (Raise (ValueError (PropertyNameNotAlpha "1bad")),
                 empty_registry))
    by (apply register_gate_raise; reflexivity).
  split; [exact H|].
  apply (check_errors_do_not_depend_on_registry _ _ _ _ _ _ _ _ H);
    discriminate.
Defined.

(** X14. The three functions that test [if not version] take the branch for
    every falsy argument, the empty string as well as [None], and the
    attribute access in it raises [AttributeError] on that argument. *)
Theorem falsy_version_raises_attribute_error
    (matches : string -> bool) (validate_type : string -> pyvalue -> outcome unit)
    (t : PyType) (version : pyvalue) (reg : Registry) :
  truthy version = false ->
  _register_object matches t version reg
  = (Raise (if is_DomainObject t
            then AttributeError version "DEFAULT_VERSION"
            else ValueError (NotCustomObject (__name__ t))), reg)
  /\ _register_marking matches validate_type t version reg
     = (Raise (AttributeError version "DEFAULT_VERSION"), reg)
  /\ _register_observable matches t version reg
     = (Raise (AttributeError version "DEFAULT_VERSION"), reg).
Proof.
  intros Hf.
  unfold _register_object, _register_marking, _register_observable,
    bind, when, getattr, raise, ret.
  rewrite Hf. cbn [negb]. destruct (is_DomainObject t); auto.
Qed.

Lemma falsy_version_raises_attribute_error_witness :
  truthy (PyStr "") = false
  /\ _register_observable begins_with_alpha sensor (PyStr "") empty_registry
     = (Raise (AttributeError (PyStr "") "DEFAULT_VERSION"), empty_registry).
Proof.
  split; [reflexivity|].
  apply (falsy_version_raises_attribute_error begins_with_alpha
           lenient_validate_type sensor (PyStr "") empty_registry).
  reflexivity.
Defined.

(** X15. [_register_extension] has no branch for a missing version: with
    [None] it never registers, and when the checks pass it raises
    [KeyError(None)] at the subscript of the registry. *)
Theorem extension_does_not_default_the_version
    (matches : string -> bool) (validate_type : string -> pyvalue -> outcome unit)
    (new_extension : PyType) (reg : Registry) :
  fst (_register_extension matches validate_type new_extension PyNone reg)
  <> Ok tt
  /\ (validate_type (_type new_extension) PyNone = Ok tt ->
      Dict.is_empty (combined_props_of new_extension) = false ->
      _validate_props matches (combined_props_of new_extension) PyNone
      = Ok tt ->
      _register_extension matches validate_type new_extension PyNone reg
      = (Raise (KeyError PyNone), reg)).
Proof.
  change (_register_extension matches validate_type new_extension PyNone reg)
    with (register matches validate_type Extensions new_extension PyNone reg).
  rewrite register_phases. split.
  - destruct (gate matches validate_type Extensions new_extension PyNone)
      as [v0|e] eqn:Hg; [|discriminate].
    apply gate_version in Hg. subst v0. rewrite store_run. discriminate.
  - intros Hvt Hne Hp. cbn [gate]. rewrite Hvt, Hne, Hp. reflexivity.
Qed.

Lemma extension_does_not_default_the_version_witness :
  _register_extension begins_with_alpha lenient_validate_type
    prefixed_extension PyNone empty_registry
  = (Raise (KeyError PyNone), empty_registry).
Proof.
  apply (proj2 (extension_does_not_default_the_version begins_with_alpha
                  lenient_validate_type prefixed_extension empty_registry));
    reflexivity.
Defined.

(** X16. When the collaborator accepts the identifier, an extension is
    refused with the naming error exactly when the version is "2.1" and the
    identifier neither ends in '-ext' nor starts with
    'extension-definition--'; under every other version the naming rule is
    not applied. *)
Theorem extension_naming_error_iff
    (matches : string -> bool) (validate_type : string -> pyvalue -> outcome unit)
    (new_extension : PyType) (version : pyvalue) (reg : Registry) :
  validate_type (_type new_extension) version = Ok tt ->
  (_register_extension matches validate_type new_extension version reg
   = (Raise (ValueError (InvalidExtensionTypeName (_type new_extension))), reg)
   <->
   version = PyStr "2.1"
   /\ Str.endswith (_type new_extension) "-ext" = false
   /\ Str.startswith (_type new_extension) "extension-definition--" = false).
Proof.
  intros Hvt.
  change (_register_extension matches validate_type new_extension version reg)
    with (register matches validate_type Extensions new_extension version reg).
  rewrite register_phases. cbn [gate]. rewrite Hvt.
  unfold seq_checks, guard.
  assert (Hlater :
            match
              match
                (if Dict.is_empty (combined_props_of new_extension)
                 then Raise (ValueError (ExtensionWithoutProperties
                                           (_type new_extension)))
                 else Ok tt)
              with
              | Ok _ => _validate_props matches
                          (combined_props_of new_extension) version
              | Raise e => Raise e
              end
            with
            | Ok _ => store Extensions new_extension version reg
            | Raise e => (Raise e, reg)
            end
            <> (Raise (ValueError (InvalidExtensionTypeName
                                     (_type new_extension))), reg)).
  { destruct (Dict.is_empty (combined_props_of new_extension));
      [discriminate|].
    destruct (_validate_props matches (combined_props_of new_extension)
                version) as [u|e] eqn:Hp.
    - rewrite store_run. destruct version as [|v]; [discriminate|].
      destruct (reg !! v) as [c|]; [|discriminate].
      destruct (c !! namespace_key Extensions) as [ty|]; [|discriminate].
      destruct (ty !! _type new_extension); discriminate.
    - apply validate_props_raise_inv in Hp
        as (n & p & _ & [[-> _] | [[-> _] | [-> _]]]); discriminate. }
  destruct (py_eq_str version "2.1") eqn:Ev; cbn [andb].
  - apply py_eq_str_true in Ev.
    destruct (Str.endswith (_type new_extension) "-ext"
              || Str.startswith (_type new_extension)
                                "extension-definition--") eqn:Ho;
      cbn [negb].
    + split.
      * intros H. exfalso. apply Hlater.
        destruct (if Dict.is_empty (combined_props_of new_extension)
                  then _ else _);
          [|exact H].
        destruct (_validate_props matches (combined_props_of new_extension)
                    version); exact H.
      * intros (_ & He & Hs). rewrite He, Hs in Ho. discriminate.
    + apply orb_false_elim in Ho as [He Hs]. split; auto.
  - apply py_eq_str_false in Ev. split; [|tauto].
    intros H. exfalso. apply Hlater.
    destruct (if Dict.is_empty (combined_props_of new_extension)
              then _ else _);
      [|exact H].
    destruct (_validate_props matches (combined_props_of new_extension)
                version); exact H.
Qed.

Lemma extension_naming_error_iff_witness :
  lenient_validate_type "foo-bar" (PyStr "2.1") = Ok tt
  /\ _register_extension begins_with_alpha lenient_validate_type
       (mkPyType "Foo" "foo-bar" [("rank", plain_property)] None false)
       (PyStr "2.1") empty_registry
     = (Raise (ValueError (InvalidExtensionTypeName "foo-bar")),
        empty_registry).
Proof.
  split; [reflexivity|].
  apply (proj2 (extension_naming_error_iff begins_with_alpha
                  lenient_validate_type
                  (mkPyType "Foo" "foo-bar" [("rank", plain_property)] None
                     false)
                  (PyStr "2.1") empty_registry eq_refl)).
  repeat split.
Defined.

(** X17. An extension with no property of its own and no top-level property
    is never registered; when the collaborator accepts the identifier and
    the naming rule of "2.1" does not strike first, the error is the one
    that asks for at least one property, whatever the registry holds. *)
Theorem extension_without_properties_rejected
    (matches : string -> bool) (validate_type : string -> pyvalue -> outcome unit)
    (new_extension : PyType) (version : pyvalue) (reg : Registry) :
  _properties new_extension = [] ->
  default [] (_toplevel_properties new_extension) = [] ->
  fst (_register_extension matches validate_type new_extension version reg)
  <> Ok tt
  /\ (validate_type (_type new_extension) version = Ok tt ->
      (version = PyStr "2.1" ->
       Str.endswith (_type new_extension) "-ext"
       || Str.startswith (_type new_extension) "extension-definition--"
       = true) ->
      _register_extension matches validate_type new_extension version reg
      = (Raise (ValueError
                  (ExtensionWithoutProperties (_type new_extension))), reg)).
Proof.
  intros Hown Htop.
  assert (Hempty : combined_props_of new_extension = []).
  { unfold combined_props_of. rewrite Hown, Htop. reflexivity. }
  change (_register_extension matches validate_type new_extension version reg)
    with (register matches validate_type Extensions new_extension version reg).
  rewrite register_phases. cbn [gate]. rewrite Hempty.
  unfold seq_checks, guard. cbn [Dict.is_empty]. split.
  - destruct (validate_type (_type new_extension) version); [|discriminate].
    destruct (py_eq_str version "2.1"
              && negb (Str.endswith (_type new_extension) "-ext"
                       || Str.startswith (_type new_extension)
                                         "extension-definition--"));
      discriminate.
  - intros -> Hname.
    destruct (py_eq_str version "2.1") eqn:Ev; cbn [andb]; [|reflexivity].
    apply py_eq_str_true in Ev. rewrite (Hname Ev). reflexivity.
Qed.

Lemma extension_without_properties_rejected_witness :
  _register_extension begins_with_alpha lenient_validate_type
    (mkPyType "Empty" "empty-ext" [] (Some []) false) (PyStr "2.1")
    empty_registry
  = (Raise (ValueError (ExtensionWithoutProperties "empty-ext")),
     empty_registry).
Proof.
  apply (proj2 (extension_without_properties_rejected begins_with_alpha
                  lenient_validate_type
                  (mkPyType "Empty" "empty-ext" [] (Some []) false)
                  (PyStr "2.1") empty_registry eq_refl eq_refl));
    reflexivity.
Defined.

(** ** The registry across registrations *)

Lemma namespace_at_some (k : Kind) (v : string) (reg : Registry)
    (types : Namespace) :
  namespace_at k v reg = Some types <->
  exists catalog : Catalog,
    reg !! v = Some catalog /\ catalog !! namespace_key k = Some types.
Proof.
  unfold namespace_at. destruct (reg !! v) as [catalog|]; simpl.
  - split; [eauto|]. intros (c & Hc & H). congruence.
  - split; [discriminate|]. intros (c & Hc & _). discriminate.
Qed.

Lemma namespace_at_registered
    (k k' : Kind) (v v' : string) (t : PyType) (reg : Registry) :
  namespace_at k' v' (registered k v t reg) =
  if decide (k' = k /\ v' = v)
  then insert (_type t) t <$> namespace_at k v reg
  else namespace_at k' v' reg.
Proof.
  unfold namespace_at. rewrite registered_lookup.
  destruct (decide (v = v')) as [<-|Hv].
  - destruct (reg !! v) as [catalog|]; simpl.
    + destruct (decide (k' = k)) as [->|Hk].
      * rewrite decide_True by auto. apply lookup_alter_eq.
      * rewrite decide_False by tauto. apply lookup_alter_ne.
        intros H. apply namespace_key_inj in H. congruence.
    + destruct (decide (k' = k /\ v = v)); reflexivity.
  - rewrite decide_False; [reflexivity|]. intros [_ H]. congruence.
Qed.

Lemma deref_namespace_at (k : Kind) (v : string) (reg : Registry) :
  deref (DictRef v (namespace_key k)) reg = default ∅ (namespace_at k v reg).
Proof. reflexivity. Qed.

Lemma register_ok_at
    (matches : string -> bool) (validate_type : string -> pyvalue -> outcome unit)
    (k : Kind) (t : PyType) (version : pyvalue) (reg reg' : Registry) :
  register matches validate_type k t version reg = (Ok tt, reg') <->
  gate matches validate_type k t version = Ok version
  /\ exists (v : string) (types : Namespace),
       version = PyStr v
       /\ namespace_at k v reg = Some types
       /\ types !! _type t = None
       /\ reg' = registered k v t reg.
Proof.
  rewrite register_ok_iff. split.
  - intros [Hg (v & c & ty & -> & Hv & Hk & Hf & ->)]. split; [exact Hg|].
    exists v, ty. repeat split; [|exact Hf].
    apply namespace_at_some. eauto.
  - intros [Hg (v & ty & -> & Hn & Hf & ->)]. split; [exact Hg|].
    apply namespace_at_some in Hn as (c & Hv & Hk).
    exists v, c, ty. auto.
Qed.

Lemma registered_commute
    (k k' : Kind) (v v' : string) (t t' : PyType) (reg : Registry) :
  (k, v, _type t) <> (k', v', _type t') ->
  registered k v t (registered k' v' t' reg)
  = registered k' v' t' (registered k v t reg).
Proof.
  intros Hne. unfold registered.
  destruct (decide (v = v')) as [<-|Hv]; [|apply alter_alter_ne; exact Hv].
  rewrite !alter_alter_eq. apply alter_ext. intros catalog _.
  unfold compose.
  destruct (decide (k = k')) as [<-|Hk].
  - rewrite !alter_alter_eq. apply alter_ext. intros types _.
    unfold compose. apply insert_insert_ne. congruence.
  - apply alter_alter_ne. intros H. apply namespace_key_inj in H.
    contradiction.
Qed.

(** X18. A successful registration creates no version and no namespace: the
    registry keeps its versions and every catalog its namespace keys; the
    target namespace gains the identifier and grows by exactly one entry. *)
Theorem registration_keeps_registry_shape
    (matches : string -> bool) (validate_type : string -> pyvalue -> outcome unit)
    (k : Kind) (t : PyType) (version : pyvalue) (reg reg' : Registry) :
  register matches validate_type k t version reg = (Ok tt, reg') ->
  dom reg' = dom reg
  /\ (forall v' : string, dom <$> reg' !! v' = dom <$> reg !! v')
  /\ exists v : string,
       version = PyStr v
       /\ dom (deref (DictRef v (namespace_key k)) reg')
          = {[ _type t ]} ∪ dom (deref (DictRef v (namespace_key k)) reg)
       /\ size (deref (DictRef v (namespace_key k)) reg')
          = S (size (deref (DictRef v (namespace_key k)) reg)).
Proof.
  intros H. apply register_ok_at in H
    as [_ (v & types & -> & Hn & Hfree & ->)].
  split; [apply dom_alter_L|]. split.
  - intros v'. rewrite registered_lookup.
    destruct (decide (v = v')) as [<-|]; [|reflexivity].
    destruct (reg !! v) as [catalog|]; [|reflexivity].
    simpl. f_equal. apply dom_alter_L.
  - exists v. split; [reflexivity|].
    rewrite !deref_namespace_at, namespace_at_registered, decide_True by auto.
    rewrite Hn. simpl. split.
    + apply dom_insert_L.
    + apply map_size_insert_None. exact Hfree.
Qed.

Lemma registration_keeps_registry_shape_witness :
  register begins_with_alpha lenient_validate_type Observables sensor
    (PyStr "2.1") empty_registry
  = (Ok tt, registered Observables "2.1" sensor empty_registry)
  /\ dom (registered Observables "2.1" sensor empty_registry)
     = dom empty_registry.
Proof.
  assert (H : register begins_with_alpha lenient_validate_type Observables
                sensor (PyStr "2.1") empty_registry
              = (Ok tt, registered Observables "2.1" sensor empty_registry))
    by (apply (register_ok _ _ Observables sensor "2.1" empty_registry
                 empty_catalog ∅); reflexivity).
  split; [exact H|].
  exact (proj1 (registration_keeps_registry_shape _ _ _ _ _ _ _ H)).
Defined.

(** X19. Two registrations that succeed one after the other succeed in the
    other order as well, and leave the same registry. *)
Theorem registrations_commute
    (matches : string -> bool) (validate_type : string -> pyvalue -> outcome unit)
    (ka kb : Kind) (ta tb : PyType) (va vb : pyvalue)
    (reg reg1 reg2 : Registry) :
  register matches validate_type ka ta va reg = (Ok tt, reg1) ->
  register matches validate_type kb tb vb reg1 = (Ok tt, reg2) ->
  exists reg1' : Registry,
    register matches validate_type kb tb vb reg = (Ok tt, reg1')
    /\ register matches validate_type ka ta va reg1' = (Ok tt, reg2).
Proof.
  intros Ha Hb.
  apply register_ok_at in Ha as [Hga (sa & tya & -> & Hna & Hfa & ->)].
  apply register_ok_at in Hb as [Hgb (sb & tyb & -> & Hnb & Hfb & ->)].
  rewrite namespace_at_registered in Hnb.
  exists (registered kb sb tb reg).
  destruct (decide (kb = ka /\ sb = sa)) as [[-> ->]|Hslot].
  - rewrite Hna in Hnb. simpl in Hnb. injection Hnb as <-.
    assert (Hid : _type ta <> _type tb).
    { intros Heq. rewrite <- Heq, lookup_insert_eq in Hfb. discriminate. }
    rewrite lookup_insert_ne in Hfb by exact Hid.
    split.
    + apply register_ok_at. split; [exact Hgb|].
      exists sa, tya. auto.
    + apply register_ok_at. split; [exact Hga|].
      exists sa, (<[_type tb := tb]> tya).
      split; [reflexivity|]. split.
      { rewrite namespace_at_registered, decide_True, Hna by auto.
        reflexivity. }
      split; [rewrite lookup_insert_ne by congruence; exact Hfa|].
      apply registered_commute. congruence.
  - split.
    + apply register_ok_at. split; [exact Hgb|].
      exists sb, tyb. auto.
    + apply register_ok_at. split; [exact Hga|].
      exists sa, tya. split; [reflexivity|]. split.
      { rewrite namespace_at_registered, decide_False; [exact Hna|].
        intros [-> ->]. apply Hslot. auto. }
      split; [exact Hfa|].
      apply registered_commute. intros Heq. apply Hslot.
      injection Heq as -> -> _. auto.
Qed.

Lemma registrations_commute_witness :
  exists reg1' : Registry,
    register begins_with_alpha lenient_validate_type Observables sensor
      (PyStr "2.1") empty_registry = (Ok tt, reg1')
    /\ register begins_with_alpha lenient_validate_type DomainObjects widget
         (PyStr "2.1") reg1'
       = (Ok tt,
          registered Observables "2.1" sensor
            (registered DomainObjects "2.1" widget empty_registry)).
Proof.
  apply (registrations_commute begins_with_alpha lenient_validate_type
           DomainObjects Observables widget sensor (PyStr "2.1") (PyStr "2.1")
           empty_registry
           (registered DomainObjects "2.1" widget empty_registry)).
  - apply (register_ok _ _ DomainObjects widget "2.1" empty_registry
             empty_catalog ∅); reflexivity.
  - apply (register_ok _ _ Observables sensor "2.1" _
             (alter (insert "x-widget" widget) "objects" empty_catalog) ∅);
      reflexivity.
Defined.

(** ** The merge of the two property sets *)

Lemma dict_set_keys_in {V} (k k' : string) (v : V) (d : Dict.t V) :
  In k' (Dict.keys (Dict.set k v d)) <-> k' = k \/ In k' (Dict.keys d).
Proof.
  induction d as [|[k0 v0] r IH]; simpl.
  - split; [intros [<-|[]]; auto | intros [->|[]]; auto].
  - destruct (String.eqb k0 k) eqn:E; simpl.
    + apply String.eqb_eq in E. subst k0. split; [tauto|].
      intros [->|H]; auto.
    + rewrite IH. tauto.
Qed.

Lemma dict_set_nodup {V} (k : string) (v : V) (d : Dict.t V) :
  List.NoDup (Dict.keys d) -> List.NoDup (Dict.keys (Dict.set k v d)).
Proof.
  induction d as [|[k0 v0] r IH]; simpl; intros Hnd.
  - apply List.NoDup_cons; [intros [] | apply List.NoDup_nil].
  - apply List.NoDup_cons_iff in Hnd as [Hnotin Hnd].
    destruct (String.eqb k0 k) eqn:E; simpl.
    + apply List.NoDup_cons; assumption.
    + apply List.NoDup_cons; [|apply IH; exact Hnd].
      intros Hin. apply dict_set_keys_in in Hin as [->|Hin]; [|tauto].
      rewrite String.eqb_refl in E. discriminate.
Qed.

Lemma dict_update_keys_in {V} (k : string) (items d : Dict.t V) :
  In k (Dict.keys (Dict.update d items)) <->
  In k (Dict.keys d) \/ In k (Dict.keys items).
Proof.
  unfold Dict.update. revert d.
  induction items as [|[k0 v0] r IH]; simpl; intros d; [tauto|].
  rewrite IH, dict_set_keys_in. intuition congruence.
Qed.

Lemma dict_update_nodup {V} (items d : Dict.t V) :
  List.NoDup (Dict.keys d) -> List.NoDup (Dict.keys (Dict.update d items)).
Proof.
  unfold Dict.update. revert d.
  induction items as [|[k0 v0] r IH]; simpl; intros d Hnd; [exact Hnd|].
  apply IH, dict_set_nodup, Hnd.
Qed.

Lemma dict_set_new {V} (k : string) (v : V) (d : Dict.t V) :
  ~ In k (Dict.keys d) -> Dict.set k v d = (d ++ [(k, v)])%list.
Proof.
  induction d as [|[k0 v0] r IH]; simpl; intros Hnotin; [reflexivity|].
  destruct (String.eqb k0 k) eqn:E.
  - apply String.eqb_eq in E. tauto.
  - rewrite IH by tauto. reflexivity.
Qed.

Lemma dict_update_fresh {V} (items d : Dict.t V) :
  List.NoDup (Dict.keys (d ++ items)%list) ->
  Dict.update d items = (d ++ items)%list.
Proof.
  unfold Dict.update. revert d.
  induction items as [|[k0 v0] r IH]; simpl; intros d Hnd.
  - symmetry. apply app_nil_r.
  - assert (Hnotin : ~ In k0 (Dict.keys d)).
    { unfold Dict.keys in Hnd. rewrite map_app in Hnd. simpl in Hnd.
      apply List.NoDup_remove_2 in Hnd. intros Hin. apply Hnd.
      apply in_or_app. left. exact Hin. }
    rewrite dict_set_new by exact Hnotin.
    rewrite IH; rewrite <- app_assoc; [reflexivity | exact Hnd].
Qed.

Lemma dict_get_none_in {V} (k : string) (d : Dict.t V) :
  Dict.get k d = None -> ~ In k (Dict.keys d).
Proof.
  induction d as [|[k0 v0] r IH]; simpl; [tauto|].
  destruct (String.eqb k0 k) eqn:E; [discriminate|].
  apply String.eqb_neq in E. intros H [Heq|Hin]; [contradiction|].
  apply (IH H Hin).
Qed.

Lemma dict_get_update_cases {V} (k : string) (items d : Dict.t V) :
  List.NoDup (Dict.keys items) ->
  Dict.get k (Dict.update d items) =
  match Dict.get k items with
  | Some v => Some v
  | None => Dict.get k d
  end.
Proof.
  intros Hnd. destruct (Dict.get k items) as [v|] eqn:Hg.
  - apply dict_get_update; assumption.
  - apply dict_get_update_other, dict_get_none_in, Hg.
Qed.

(** X20. The merged property set of an extension, for property sets with
    distinct keys: a key has the value of the top-level set when it is
    there and its own value otherwise; the merged keys are the keys of
    either set, each once; without top-level properties the merged set is
    the own set, item by item; and the merged set is empty only when both
    sets are. *)
Theorem merged_property_set
    (new_extension : PyType) (own toplevel : Dict.t Property) :
  _properties new_extension = own ->
  default [] (_toplevel_properties new_extension) = toplevel ->
  List.NoDup (Dict.keys own) ->
  List.NoDup (Dict.keys toplevel) ->
  (forall key : string,
      Dict.get key (combined_props_of new_extension) =
      match Dict.get key toplevel with
      | Some v => Some v
      | None => Dict.get key own
      end)
  /\ List.NoDup (Dict.keys (combined_props_of new_extension))
  /\ (forall key : string,
        In key (Dict.keys (combined_props_of new_extension)) <->
        In key (Dict.keys own) \/ In key (Dict.keys toplevel))
  /\ (toplevel = [] -> combined_props_of new_extension = own)
  /\ (Dict.is_empty (combined_props_of new_extension) = true <->
      own = [] /\ toplevel = []).
Proof.
  intros Hown Htop Hnd1 Hnd2. unfold combined_props_of, Dict.merge.
  rewrite Hown, Htop.
  assert (Hfresh : Dict.update [] own = own)
    by (apply (dict_update_fresh own []); exact Hnd1).
  rewrite Hfresh.
  assert (Hkeys : forall key : string,
            In key (Dict.keys (Dict.update own toplevel)) <->
            In key (Dict.keys own) \/ In key (Dict.keys toplevel))
    by (intros key; apply dict_update_keys_in).
  split; [intros key; apply dict_get_update_cases; exact Hnd2|].
  split; [apply dict_update_nodup; exact Hnd1|].
  split; [exact Hkeys|].
  split; [intros ->; reflexivity|].
  split.
  - intros He.
    destruct (Dict.update own toplevel) as [|kv r] eqn:Hu; [|discriminate].
    destruct own as [|[k1 v1] r1].
    + split; [reflexivity|]. destruct toplevel as [|[k2 v2] r2];
        [reflexivity|].
      exfalso. apply (proj2 (Hkeys k2)). right. left. reflexivity.
    + exfalso. apply (proj2 (Hkeys k1)). left. left. reflexivity.
  - intros [-> ->]. reflexivity.
Qed.

Lemma merged_property_set_witness :
  Dict.get "target_ref" (combined_props_of overriding_extension)
  = Some plain_property
  /\ Dict.get "rank" (combined_props_of overriding_extension)
     = Some plain_property.
Proof.
  assert (Hnd1 : List.NoDup (Dict.keys (_properties overriding_extension))).
  { apply List.NoDup_cons; [simpl; intros [H|[]]; discriminate|].
    apply List.NoDup_cons; [simpl; tauto | apply List.NoDup_nil]. }
  assert (Hnd2 : List.NoDup (Dict.keys [("target_ref", plain_property)])).
  { apply List.NoDup_cons; [simpl; tauto | apply List.NoDup_nil]. }
  split;
    apply (proj1 (merged_property_set overriding_extension _ _
                    eq_refl eq_refl Hnd1 Hnd2)).
Defined.

(** X21. For markings and extensions the collaborator's verdict on the
    identifier comes before the property sets are looked at: when it raises,
    that exception is the result of the registration, whatever the
    properties and the registry are (for a marking, once the version is
    truthy). *)
Theorem identifier_check_comes_first
    (matches : string -> bool) (validate_type : string -> pyvalue -> outcome unit)
    (t : PyType) (version : pyvalue) (reg : Registry) (e : Exception) :
  validate_type (_type t) version = Raise e ->
  (truthy version = true ->
   _register_marking matches validate_type t version reg = (Raise e, reg))
  /\ _register_extension matches validate_type t version reg = (Raise e, reg).
Proof.
  intros Hvt. split.
  - intros Ht. apply (register_gate_raise _ _ Markings).
    cbn [gate]. unfold resolve_version, seq_checks. rewrite Ht.
    cbn [negb]. rewrite Hvt. reflexivity.
  - apply (register_gate_raise _ _ Extensions).
    cbn [gate]. unfold seq_checks. rewrite Hvt. reflexivity.
Qed.

Lemma identifier_check_comes_first_witness :
  lenient_validate_type "Bad_Name" (PyStr "2.1")
  = Raise (ValueError (InvalidTypeName "Bad_Name" "characters"))
  /\ _register_extension begins_with_alpha lenient_validate_type
       (mkPyType "Bad" "Bad_Name" [("1bad", plain_property)] None false)
       (PyStr "2.1") empty_registry
     = (Raise (ValueError (InvalidTypeName "Bad_Name" "characters")),
        empty_registry).
Proof.
  split; [reflexivity|].
  apply (proj2 (identifier_check_comes_first begins_with_alpha
                  lenient_validate_type
                  (mkPyType "Bad" "Bad_Name" [("1bad", plain_property)] None
                     false)
                  (PyStr "2.1") empty_registry _ eq_refl)).
Defined.
